(** * Skybox cube-face identification, stitching and material emission

    A shallow embedding of [scripts/skybox_gui_old.py]: the filename
    matcher [select_skybox_files], the compositor [stitch_skybox], the
    material writers [create_vmat_files] and the driver [main].

    Conventions of the embedding.
    - A Python [str] is the Rocq [string] of its UTF-8 bytes; searching
      for an ASCII pattern, splitting at a slash and testing a suffix
      read the same on the bytes as on the code points.  [str.lower]
      follows the Unicode tables and is an interface ([PyStr.Casing]).
    - A Python [dict] is an insertion-ordered association list with
      unique keys (module [Dict]); [d[k] = v] keeps the position of an
      existing key and appends a new one, as CPython does.
    - A Pillow image is its size together with a pixel-access function;
      in-place mutation ([paste]) is modelled by returning the new image.
    - Dialog boxes, file writes and the commands handed to the system
      are returned as values, in the order the program performs them.
    - [os.path] and the Pillow resampling kernels are interfaces
      ([OsPath], [Pillow]); the file system, the decoders and
      [sys.platform] are a record [World].  Saving the atlas is one
      step.  Writing a text file is two: [open] can raise before the
      file exists, and the write or the close can raise after it was
      created or truncated, which leaves the file behind.
    - Global names are looked up in [module_globals], the names the
      module binds.  It reads three names that nothing binds --
      [messagebox], [VTF_SUPPORT] and [Parser] -- and reading one raises
      [NameError], here as in the interpreter.
    - Pillow's [paste], [transpose] and [rotate] follow the library's
      documented behaviour: [paste] without a mask overwrites and clips
      to the destination; [rotate] is counter-clockwise and, with
      [expand=False], keeps the size. *)

From Stdlib Require Import String Ascii List Bool Arith Lia ZArith NArith.
From Stdlib Require Import DecimalString.
Import ListNotations.

Local Open Scope list_scope.
Local Open Scope bool_scope.
Local Open Scope string_scope.

(* ================================================================== *)
(** ** Python string operations *)

Module PyStr.

(** The line feed and the double quote, which the templates contain. *)
Definition nl : string := String (ascii_of_nat 10) EmptyString.
Definition dq : string := String (ascii_of_nat 34) EmptyString.

(** [s.lower()].  Which characters have a lower-case form, and which
    form, is fixed by the Unicode tables of the interpreter (the Kelvin
    sign U+212A lowers to the letter k, for one): the function is taken
    as given. *)
Class Casing := { lower : string -> string }.

Definition lower_char (c : ascii) : ascii :=
  let n := nat_of_ascii c in
  if ((65 <=? n)%nat && (n <=? 90)%nat)%bool then ascii_of_nat (n + 32) else c.

(** What [s.lower()] is on ASCII text: it moves the letters A-Z only. *)
Fixpoint lower_ascii (s : string) : string :=
  match s with
  | EmptyString => EmptyString
  | String c r => String (lower_char c) (lower_ascii r)
  end.

(** [s.startswith(p)] *)
Fixpoint startswith (s p : string) : bool :=
  match p, s with
  | EmptyString, _ => true
  | String _ _, EmptyString => false
  | String a p', String b s' => Ascii.eqb a b && startswith s' p'
  end.

(** [p in s] *)
Fixpoint contains (p s : string) : bool :=
  startswith s p ||
  match s with
  | EmptyString => false
  | String _ r => contains p r
  end.

(** [s.endswith(p)] *)
Definition endswith (s p : string) : bool :=
  (String.length p <=? String.length s)%nat &&
  String.eqb (substring (String.length s - String.length p) (String.length p) s) p.

(** [sep.join(l)] *)
Fixpoint join (sep : string) (l : list string) : string :=
  match l with
  | [] => EmptyString
  | [x] => x
  | x :: r => x ++ sep ++ join sep r
  end.

(** [str(n)] for a non-negative integer *)
Definition of_nat (n : nat) : string :=
  NilEmpty.string_of_uint (Nat.to_uint n).

(** [any(p in s for p in patterns)] *)
Definition any_in (patterns : list string) (s : string) : bool :=
  existsb (fun p => contains p s) patterns.

(** The proposition behind [contains]. *)
Definition Substring (p s : string) : Prop :=
  exists a b, s = a ++ p ++ b.

End PyStr.

(** The casing of ASCII file names, on which the examples are
    evaluated. *)
#[export] Instance ascii_casing : PyStr.Casing := {
  lower := PyStr.lower_ascii
}.

(* ================================================================== *)
(** ** Insertion-ordered dictionaries with string keys *)

Module Dict.
Section Ops.
Context {V : Type}.

Definition t := list (string * V).

(** [d.get(k)] *)
Fixpoint get (k : string) (d : t) : option V :=
  match d with
  | [] => None
  | (k', v) :: r => if String.eqb k k' then Some v else get k r
  end.

(** [k in d] *)
Definition mem (k : string) (d : t) : bool :=
  match get k d with Some _ => true | None => false end.

(** [d[k] = v] *)
Fixpoint set (k : string) (v : V) (d : t) : t :=
  match d with
  | [] => [(k, v)]
  | (k', v') :: r =>
      if String.eqb k k' then (k', v) :: r else (k', v') :: set k v r
  end.

(** [d.get(k, default)] *)
Definition get_default (k : string) (default : V) (d : t) : V :=
  match get k d with Some v => v | None => default end.

(** [len(d)] *)
Definition len (d : t) : nat := List.length d.

(** [d.items()] *)
Definition items (d : t) : list (string * V) := d.

Definition keys (d : t) : list string := map fst d.
End Ops.
Arguments t : clear implicits.
End Dict.

(* ================================================================== *)
(** ** The [os.path] interface *)

Class OsPath := {
  basename : string -> string;
  dirname  : string -> string;
  (** first component of [os.path.splitext] *)
  splitext_root : string -> string;
  path_join : string -> string -> string
}.

(** [posixpath], on which the examples are evaluated. *)
Module Posix.

Definition slash : ascii := ascii_of_nat 47.
Definition dot : ascii := ascii_of_nat 46.

(** [p[p.rfind('/')+1:]] *)
Fixpoint basename (p : string) : string :=
  match p with
  | EmptyString => EmptyString
  | String c r =>
      if PyStr.contains (String slash EmptyString) p
      then (if Ascii.eqb c slash
            then (if PyStr.contains (String slash EmptyString) r
                  then basename r else r)
            else basename r)
      else p
  end.

(** [p[:p.rfind('/')+1]] *)
Definition head (p : string) : string :=
  substring 0 (String.length p - String.length (basename p)) p.

Fixpoint all_slashes (s : string) : bool :=
  match s with
  | EmptyString => true
  | String c r => Ascii.eqb c slash && all_slashes r
  end.

(** [s.rstrip('/')], by structural recursion from the left *)
Fixpoint rstrip_slash (s : string) : string :=
  match s with
  | EmptyString => EmptyString
  | String c r => if all_slashes s then EmptyString else String c (rstrip_slash r)
  end.

Definition dirname (p : string) : string :=
  let h := head p in
  if all_slashes h then h else rstrip_slash h.

(** Root of the last component: everything before its last dot,
    unless only dots precede that dot. *)
Fixpoint name_root (leading : bool) (n : string) : string :=
  match n with
  | EmptyString => EmptyString
  | String c r =>
      if Ascii.eqb c dot then
        if leading then String c (name_root true r)
        else if PyStr.contains (String dot EmptyString) r
             then String c (name_root false r)
             else EmptyString
      else String c (name_root false r)
  end.

Definition splitext_root (p : string) : string :=
  head p ++ name_root true (basename p).

Definition path_join (a b : string) : string :=
  if PyStr.startswith b (String slash EmptyString) then b
  else if String.eqb a EmptyString || PyStr.endswith a (String slash EmptyString)
       then a ++ b
       else a ++ String slash EmptyString ++ b.

End Posix.

#[export] Instance posixpath : OsPath := {
  basename := Posix.basename;
  dirname := Posix.dirname;
  splitext_root := Posix.splitext_root;
  path_join := Posix.path_join
}.

(* ================================================================== *)
(** ** Exceptions and global names *)

(** Python exceptions, by the classes the program tells apart. *)
Inductive exn :=
| ImportError (msg : string)
| Exception (msg : string)
| NameError (name : string).

(** [str(e)] *)
Definition exn_str (e : exn) : string :=
  match e with
  | ImportError msg => msg
  | Exception msg => msg
  | NameError name => "name '" ++ name ++ "' is not defined"
  end.

(** What a module-level name is bound to, as far as the program can
    tell the objects apart: in a test every one of them is true but
    [False]. *)
Inductive pyobject :=
| PyModule
| PyClass
| PyFunction
| PyTable
| PyBool (b : bool).

Definition truthy (v : pyobject) : bool :=
  match v with
  | PyBool b => b
  | _ => true
  end.

(** The names the module binds: its imports (lines 6-17), its two
    tables and its functions.  No statement binds [messagebox],
    [VTF_SUPPORT] or [Parser], and none of them is a builtin. *)
Definition module_globals : Dict.t pyobject :=
  [ ("imgui", PyModule); ("glfw", PyModule); ("GlfwRenderer", PyClass);
    ("gl", PyModule); ("sys", PyModule); ("os", PyModule);
    ("subprocess", PyModule); ("threading", PyModule); ("tempfile", PyModule);
    ("filedialog", PyModule); ("tk", PyModule); ("Image", PyModule);
    ("resource_path", PyFunction);
    ("TARGET_SLOTS", PyTable); ("DEFAULT_TRANSFORMS", PyTable);
    ("select_skybox_files", PyFunction); ("ask_vmat_preferences", PyFunction);
    ("select_output_location", PyFunction);
    ("get_ldr_vmat_content", PyFunction); ("get_moondome_vmat_content", PyFunction);
    ("create_vmat_files", PyFunction); ("convert_vtf_to_pil_image", PyFunction);
    ("stitch_skybox", PyFunction); ("main", PyFunction) ].

(** Reading a global name: its value, or the [NameError]. *)
Definition global (name : string) : exn + pyobject :=
  match Dict.get name module_globals with
  | Some v => inr v
  | None => inl (NameError name)
  end.

(* ================================================================== *)
(** ** Face identification: [select_skybox_files] *)

(** Face order for the skybox. *)
Definition TARGET_SLOTS : list string :=
  ["up"; "left"; "front"; "right"; "back"; "down"].

(** Common abbreviations for each face, in the order of the literal. *)
Definition face_patterns : Dict.t (list string) :=
  [ ("up",    ["_up."; "up."; "_up_"; "up_"; "_pz."; "pz."; "_pz_"; "pz_"]);
    ("down",  ["_down."; "down."; "_down_"; "down_"; "_dn."; "dn."; "_dn_"; "dn_";
               "_nz."; "nz."; "_nz_"; "nz_"]);
    ("left",  ["_left."; "left."; "_left_"; "left_"; "_lf."; "lf."; "_lf_"; "lf_";
               "_nx."; "nx."; "_nx_"; "nx_"]);
    ("right", ["_right."; "right."; "_right_"; "right_"; "_rt."; "rt."; "_rt_"; "rt_";
               "_px."; "px."; "_px_"; "px_"]);
    ("front", ["_front."; "front."; "_front_"; "front_"; "_ft."; "ft."; "_ft_"; "ft_";
               "_ny."; "ny."; "_ny_"; "ny_"]);
    ("back",  ["_back."; "back."; "_back_"; "back_"; "_bk."; "bk."; "_bk_"; "bk_";
               "_py."; "py."; "_py_"; "py_"]) ].

(** [any(pattern in filename for pattern in face_patterns.get(face, []))] *)
Definition face_matches (face filename : string) : bool :=
  PyStr.any_in (Dict.get_default face [] face_patterns) filename.

(** A call of [messagebox.showerror(title, message)]. *)
Record error_box := ErrorBox { box_title : string; box_message : string }.

Definition invalid_selection_box (n : nat) : error_box :=
  ErrorBox "Invalid Selection"
    ("Please select exactly 6 images. You selected " ++ PyStr.of_nat n ++ ".").

Definition duplicate_face_box (face : string) : error_box :=
  ErrorBox "Duplicate Face"
    ("Multiple files detected for '" ++ face ++ "' face." ++ PyStr.nl ++
     "Please ensure each face has only one image.").

Definition cannot_detect_box (matched : nat) (missing_faces unmatched_files : list string)
  : error_box :=
  ErrorBox "Cannot Auto-Detect Faces"
    ("Could not automatically detect which image corresponds to which skybox face."
       ++ PyStr.nl ++ PyStr.nl ++
     "Matched: " ++ PyStr.of_nat matched ++ "/6 faces" ++ PyStr.nl ++
     "Missing: " ++ PyStr.join ", " missing_faces ++ PyStr.nl ++
     "Unmatched files: " ++
       (match unmatched_files with
        | [] => "None"
        | _ :: _ => PyStr.join ", " unmatched_files
        end) ++ PyStr.nl ++ PyStr.nl ++
     "Please ensure your files are named with face indicators:" ++ PyStr.nl ++
     "Examples: skybox_up.png, left.tga, mysky_front.jpg, etc.").

(** What the inner [for face in TARGET_SLOTS] loop does with one file. *)
Inductive slot_scan :=
| SlotDuplicate (face : string)
| SlotAssigned (face : string) (files : Dict.t string)
| SlotUnmatched.

Fixpoint scan_slots (slots : list string) (filename file_path : string)
    (files : Dict.t string) : slot_scan :=
  match slots with
  | [] => SlotUnmatched
  | face :: rest =>
      if face_matches face filename then
        if Dict.mem face files then SlotDuplicate face
        else SlotAssigned face (Dict.set face file_path files)
      else scan_slots rest filename file_path files
  end.

(** What the outer [for file_path in file_paths] loop ends with. *)
Inductive file_scan :=
| ScanDuplicate (face : string)
| ScanDone (files : Dict.t string) (unmatched_files : list string).

(** The result of [select_skybox_files]: the error box shown, if any,
    the value returned ([None] or the [files] dictionary), and the
    exception that ended the call, if one did. *)
Record selection := Selection {
  shown : option error_box;
  returned : option (Dict.t string);
  raised : option exn
}.

Section Identify.
Context {casing : PyStr.Casing} {ospath : OsPath}.

Fixpoint scan_files (file_paths : list string) (files : Dict.t string)
    (unmatched_files : list string) : file_scan :=
  match file_paths with
  | [] => ScanDone files unmatched_files
  | file_path :: rest =>
      let filename := PyStr.lower (basename file_path) in
      match scan_slots TARGET_SLOTS filename file_path files with
      | SlotDuplicate face => ScanDuplicate face
      | SlotAssigned _ files' => scan_files rest files' unmatched_files
      | SlotUnmatched =>
          scan_files rest files (unmatched_files ++ [basename file_path])%list
      end
  end.

(** Lines 78-136, what [select_skybox_files] does with the answer of
    the file dialog ([file_paths], empty on cancel). *)
Definition faces_of_selection (file_paths : list string) : selection :=
  match file_paths with
  | [] => Selection None None None
  | _ :: _ =>
      if negb (List.length file_paths =? 6)%nat then
        Selection (Some (invalid_selection_box (List.length file_paths))) None None
      else
        match scan_files file_paths [] [] with
        | ScanDuplicate face => Selection (Some (duplicate_face_box face)) None None
        | ScanDone files unmatched_files =>
            if negb (Dict.len files =? 6)%nat then
              let missing_faces :=
                filter (fun face => negb (Dict.mem face files)) TARGET_SLOTS in
              Selection
                (Some (cannot_detect_box (Dict.len files) missing_faces unmatched_files))
                None None
            else Selection None (Some files) None
        end
  end.

(** [file_paths] is what the file dialog would answer.  Before the
    dialog the function shows its instructions with
    [messagebox.showinfo] (line 56): reading [messagebox] comes first. *)
Definition select_skybox_files (file_paths : list string) : selection :=
  match global "messagebox" with
  | inl e => Selection None None (Some e)
  | inr _ => faces_of_selection file_paths
  end.
End Identify.

(* ================================================================== *)
(** ** Pillow images *)

Record pixel := RGBA { red : N; green : N; blue : N; alpha : N }.

(** An RGBA image: [size] and the pixel at each in-range coordinate
    ([data] is never read outside the size). *)
Record Image := mkImage {
  width : nat;
  height : nat;
  data : nat -> nat -> pixel
}.

Definition size (im : Image) : nat * nat := (width im, height im).

(** [im.getpixel((x, y))]; out of range raises, here [None]. *)
Definition getpixel (im : Image) (x y : nat) : option pixel :=
  if (x <? width im)%nat && (y <? height im)%nat then Some (data im x y) else None.

(** [Image.new('RGBA', (w, h), color)] *)
Definition Image_new (w h : nat) (color : pixel) : Image :=
  mkImage w h (fun _ _ => color).

(** [dst.paste(src, (px, py))]: no mask, so the source pixels replace
    the destination's, alpha included; the box is clipped to [dst]. *)
Definition paste (dst src : Image) (position : nat * nat) : Image :=
  let '(px, py) := position in
  mkImage (width dst) (height dst)
    (fun x y =>
       if (px <=? x)%nat && (x <? px + width src)%nat &&
          (py <=? y)%nat && (y <? py + height src)%nat
       then data src (x - px) (y - py)
       else data dst x y).

(** [Image.Transpose] *)
Inductive Transpose :=
| FLIP_LEFT_RIGHT | FLIP_TOP_BOTTOM
| ROTATE_90 | ROTATE_180 | ROTATE_270
| TRANSPOSE | TRANSVERSE.

(** [im.transpose(method)] *)
Definition transpose (im : Image) (method : Transpose) : Image :=
  let w := width im in
  let h := height im in
  match method with
  | FLIP_LEFT_RIGHT => mkImage w h (fun x y => data im (w - 1 - x) y)
  | FLIP_TOP_BOTTOM => mkImage w h (fun x y => data im x (h - 1 - y))
  | ROTATE_90 => mkImage h w (fun x y => data im (w - 1 - y) x)
  | ROTATE_180 => mkImage w h (fun x y => data im (w - 1 - x) (h - 1 - y))
  | ROTATE_270 => mkImage h w (fun x y => data im y (h - 1 - x))
  | TRANSPOSE => mkImage h w (fun x y => data im y x)
  | TRANSVERSE => mkImage h w (fun x y => data im (w - 1 - y) (h - 1 - x))
  end.

(** The resampling kernels of Pillow, known here by their contract on
    sizes only. *)
Class Pillow := {
  (** [im.resize((w, h), Image.Resampling.LANCZOS)] *)
  resize : Image -> nat * nat -> Image;
  resize_width : forall im w h, width (resize im (w, h)) = w;
  resize_height : forall im w h, height (resize im (w, h)) = h;
  (** the affine path of [im.rotate(angle, expand=False)], for an angle
      in (0, 360) that has no transpose shortcut *)
  rotate_affine : Image -> Z -> Image;
  rotate_affine_width : forall im a, width (rotate_affine im a) = width im;
  rotate_affine_height : forall im a, height (rotate_affine im a) = height im
}.

Section Rotate.
Context {pil : Pillow}.

(** [im.rotate(angle, expand=False)]: counter-clockwise; multiples of
    a quarter turn are transposes, other angles are resampled. *)
Definition rotate (im : Image) (angle : Z) : Image :=
  let angle := (angle mod 360)%Z in
  if (angle =? 0)%Z then im
  else if (angle =? 180)%Z then transpose im ROTATE_180
  else if ((angle =? 90)%Z || (angle =? 270)%Z) && (width im =? height im)%nat
       then transpose im (if (angle =? 90)%Z then ROTATE_90 else ROTATE_270)
       else rotate_affine im angle.
End Rotate.

(** A nearest-neighbour instance, on which the examples are evaluated. *)
Definition nearest_resize (im : Image) (wh : nat * nat) : Image :=
  mkImage (fst wh) (snd wh)
    (fun x y => data im (x * width im / fst wh) (y * height im / snd wh)).

#[export] Instance nearest_pillow : Pillow := {
  resize := nearest_resize;
  resize_width := fun _ _ _ => eq_refl;
  resize_height := fun _ _ _ => eq_refl;
  rotate_affine := fun im _ => im;
  rotate_affine_width := fun _ _ => eq_refl;
  rotate_affine_height := fun _ _ => eq_refl
}.

(* ================================================================== *)
(** ** The world outside the program *)

Record World := {
  (** [Image.open(path).convert("RGBA")], or [str(e)] of what it raised *)
  image_open : string -> string + Image;
  (** [Parser(path).get_image().convert("RGBA")] of the [vtf2img]
      library, or [str(e)] of what it raised *)
  vtf_get_image : string -> string + Image;
  (** writing a file at this path: [None] when the whole file gets
      written, or [str(e)] of what [open], the write or the close raised *)
  write_error : string -> option string;
  (** for a text file whose writing raises, given the path and the text:
      [None] when it was [open] that raised and the path is as before,
      or what the file holds after [open] created or truncated it and
      the write or the close raised *)
  left_behind : string -> string -> option string;
  (** [sys.platform] *)
  platform : string
}.

(** A file the program has written, with its contents. *)
Inductive fs_event :=
| SavedImage (path : string) (im : Image)
| WroteText (path : string) (content : string).

(* ================================================================== *)
(** ** Composition: [stitch_skybox] *)

(** A row of the transform table:
    (source face, rotation degrees counter-clockwise, flip constant). *)
Definition transform_rule : Type := string * Z * option Transpose.

Definition DEFAULT_TRANSFORMS : Dict.t transform_rule :=
  [ ("up",    ("up", 0%Z, None));
    ("down",  ("down", 0%Z, None));
    ("left",  ("back", 0%Z, None));
    ("front", ("right", 0%Z, None));
    ("right", ("front", 0%Z, None));
    ("back",  ("left", 0%Z, None)) ].

(** Coordinates for each face in the 4x3 grid. *)
Definition COORDS (base_size : nat) : Dict.t (nat * nat) :=
  [ ("up",    (base_size * 1, base_size * 0));
    ("left",  (base_size * 0, base_size * 1));
    ("front", (base_size * 1, base_size * 1));
    ("right", (base_size * 2, base_size * 1));
    ("back",  (base_size * 3, base_size * 1));
    ("down",  (base_size * 1, base_size * 2)) ].

Definition transparent : pixel := RGBA 0 0 0 0.

(** [str(KeyError(k))] *)
Definition key_error (k : string) : exn := Exception ("'" ++ k ++ "'").

(** What [stitch_skybox] returns, and the file it saved on the way. *)
Record stitched := Stitched {
  success : bool;
  message : string;
  saved : list fs_event
}.

Section Stitch.
Context {casing : PyStr.Casing} {ospath : OsPath} {pil : Pillow}.
Variable world : World.

(** The test of [VTF_SUPPORT] comes first (line 318).  The decoding is
    inside a [try]: whatever it raises, the [NameError] of reading
    [Parser] included, is raised again as an [Exception] that names the
    file. *)
Definition convert_vtf_to_pil_image (vtf_path : string) : exn + Image :=
  match global "VTF_SUPPORT" with
  | inl e => inl e
  | inr support =>
      if negb (truthy support) then
        inl (ImportError "vtf2img library is not installed. Cannot convert VTF files.")
      else
        let decoded :=
          match global "Parser" with
          | inl e => inl (exn_str e)
          | inr _ => vtf_get_image world vtf_path
          end in
        match decoded with
        | inr image => inr image
        | inl e =>
            if PyStr.contains "Unknown image format 3" e then
              inl (Exception
                     ("This VTF uses a rare compression format (Type 3) that is not supported."
                        ++ PyStr.nl ++
                      "Please use VTFEdit to manually export '" ++ basename vtf_path
                        ++ "' to PNG/TGA."))
            else
              inl (Exception
                     ("Error converting VTF file '" ++ basename vtf_path ++ "': " ++ e))
        end
  end.

(** One face of the loading loop: VTF through the converter, after the
    test of [VTF_SUPPORT] at line 347, anything else through Pillow. *)
Definition load_face (path : string) : exn + Image :=
  if PyStr.endswith (PyStr.lower path) ".vtf" then
    match global "VTF_SUPPORT" with
    | inl e => inl e
    | inr support =>
        if negb (truthy support) then
          inl (ImportError
                 ("VTF files detected but vtf2img library is not installed." ++ PyStr.nl ++
                  "Please install it with: pip install vtf2img"))
        else convert_vtf_to_pil_image path
    end
  else
    match image_open world path with
    | inr img => inr img
    | inl e => inl (Exception e)
    end.

(** [for face, path in files.items()]: fills [images] and fixes
    [base_size] at the first image's width. *)
Fixpoint load_images (items : list (string * string)) (images : Dict.t Image)
    (base_size : option nat) : exn + (Dict.t Image * option nat) :=
  match items with
  | [] => inr (images, base_size)
  | (face, path) :: rest =>
      match load_face path with
      | inl e => inl e
      | inr img =>
          let images := Dict.set face img images in
          let base_size :=
            match base_size with
            | None => Some (width img)
            | Some b => Some b
            end in
          load_images rest images base_size
      end
  end.

(** Resize to base size if needed: only the width is compared. *)
Definition fit_to_base (base_size : nat) (img : Image) : Image :=
  if negb (width img =? base_size)%nat
  then resize img (base_size, base_size)
  else img.

(** Apply rotation if specified. *)
Definition apply_rotation (rotation_degrees : Z) (img : Image) : Image :=
  if negb (rotation_degrees =? 0)%Z then rotate img rotation_degrees else img.

(** Apply flip/transpose if specified. *)
Definition apply_flip (flip : option Transpose) (img : Image) : Image :=
  match flip with
  | Some method => transpose img method
  | None => img
  end.

(** The buffer that reaches the canvas for one rule. *)
Definition face_buffer (base_size : nat) (rotation_degrees : Z)
    (flip : option Transpose) (img : Image) : Image :=
  apply_flip flip (apply_rotation rotation_degrees (fit_to_base base_size img)).

(** [for target_slot in TARGET_SLOTS]: looks the rule up, prepares the
    source image and pastes it at the slot's coordinates. *)
Fixpoint paste_slots (transforms : Dict.t transform_rule) (slots : list string)
    (images : Dict.t Image) (base_size : nat) (final_image : Image)
    : exn + Image :=
  match slots with
  | [] => inr final_image
  | target_slot :: rest =>
      let '(source_face, rotation_degrees, flip) :=
        Dict.get_default target_slot (target_slot, 0%Z, None) transforms in
      match Dict.get source_face images with
      | None => inl (key_error source_face)
      | Some image_to_paste =>
          let image_to_paste :=
            face_buffer base_size rotation_degrees flip image_to_paste in
          match Dict.get target_slot (COORDS base_size) with
          | None => inl (key_error target_slot)
          | Some position =>
              paste_slots transforms rest images base_size
                (paste final_image image_to_paste position)
          end
      end
  end.

(** The body of the [try] up to the composed image, for a given
    transform table; returns the image with its [base_size]. *)
Definition compose_with (transforms : Dict.t transform_rule)
    (files : Dict.t string) : exn + (Image * nat) :=
  match load_images (Dict.items files) [] None with
  | inl e => inl e
  | inr (_, None) =>
      inl (Exception "unsupported operand type(s) for *: 'NoneType' and 'int'")
  | inr (images, Some base_size) =>
      let final_width := base_size * 4 in
      let final_height := base_size * 3 in
      let final_image := Image_new final_width final_height transparent in
      match paste_slots transforms TARGET_SLOTS images base_size final_image with
      | inl e => inl e
      | inr final_image => inr (final_image, base_size)
      end
  end.

Definition stitch_with (transforms : Dict.t transform_rule)
    (files : Dict.t string) (output_path : string) : stitched :=
  let failed (e : exn) :=
    match e with
    | ImportError _ => Stitched false (exn_str e) []
    | _ => Stitched false ("Error creating skybox: " ++ exn_str e) []
    end in
  match compose_with transforms files with
  | inl e => failed e
  | inr (final_image, base_size) =>
      let final_width := base_size * 4 in
      let final_height := base_size * 3 in
      (* final_image.save(output_path, "PNG") *)
      match write_error world output_path with
      | Some e => failed (Exception e)
      | None =>
          Stitched true
            ("Skybox saved successfully to:" ++ PyStr.nl ++ output_path
               ++ PyStr.nl ++ PyStr.nl ++
             "Resolution: " ++ PyStr.of_nat final_width ++ "x"
               ++ PyStr.of_nat final_height)
            [SavedImage output_path final_image]
      end
  end.

(** Stitch the 6 faces into a single skybox image. *)
Definition stitch_skybox (files : Dict.t string) (output_path : string) : stitched :=
  stitch_with DEFAULT_TRANSFORMS files output_path.
End Stitch.

(* ================================================================== *)
(** ** Material descriptors: [create_vmat_files] *)

Section Vmat.
Import PyStr.

(** The lines of the standard skybox template. *)
Definition ldr_vmat_lines (sky_texture_path : string) : list string :=
    [ "// THIS FILE IS AUTO-GENERATED (STANDARD SKYBOX)";
      EmptyString;
      "Layer0";
      "{";
      "    shader " ++ dq ++ "sky.vfx" ++ dq;
      EmptyString;
      "    //---- Format ----";
      "    F_TEXTURE_FORMAT2 1 // Dxt1 (LDR)";
      EmptyString;
      "    //---- Texture ----";
      "    g_flBrightnessExposureBias " ++ dq ++ "0.000" ++ dq;
      "    g_flRenderOnlyExposureBias " ++ dq ++ "0.000" ++ dq;
      "    SkyTexture " ++ dq ++ sky_texture_path ++ dq;
      EmptyString;
      EmptyString;
      "    VariableState";
      "    {";
      "        " ++ dq ++ "Texture" ++ dq;
      "        {";
      "        }";
      "    }";
      "}" ].

(** The VMAT content for the standard skybox. *)
Definition get_ldr_vmat_content (sky_texture_path : string) : string :=
  PyStr.join nl (ldr_vmat_lines sky_texture_path).

(** The lines of the Moondome template. *)
Definition moondome_vmat_lines (sky_texture_path : string) : list string :=
    [ "// THIS FILE IS AUTO-GENERATED (MOONDOME)";
      EmptyString;
      "Layer0";
      "{";
      "    shader " ++ dq ++ "csgo_moondome.vfx" ++ dq;
      EmptyString;
      "    //---- Color ----";
      "    g_flTexCoordRotation " ++ dq ++ "0.000" ++ dq;
      "    g_nScaleTexCoordUByModelScaleAxis " ++ dq ++ "0" ++ dq ++ " // None";
      "    g_nScaleTexCoordVByModelScaleAxis " ++ dq ++ "0" ++ dq ++ " // None";
      "    g_vColorTint " ++ dq ++ "[1.000000 1.000000 1.000000 0.000000]" ++ dq;
      "    g_vTexCoordCenter " ++ dq ++ "[0.500 0.500]" ++ dq;
      "    g_vTexCoordOffset " ++ dq ++ "[0.000 0.000]" ++ dq;
      "    g_vTexCoordScale " ++ dq ++ "[1.000 1.000]" ++ dq;
      "    g_vTexCoordScrollSpeed " ++ dq ++ "[0.000 0.000]" ++ dq;
      "    TextureColor " ++ dq ++ "[1.000000 1.000000 1.000000 0.000000]" ++ dq;
      EmptyString;
      "    //---- CubeParallax ----";
      "    g_flCubeParallax " ++ dq ++ "0.000" ++ dq;
      EmptyString;
      "    //---- Fog ----";
      "    g_bFogEnabled " ++ dq ++ "1" ++ dq;
      EmptyString;
      "    //---- Texture ----";
      "    TextureCubeMap " ++ dq ++ sky_texture_path ++ dq;
      EmptyString;
      "    //---- Texture Address Mode ----";
      "    g_nTextureAddressModeU " ++ dq ++ "0" ++ dq ++ " // Wrap";
      "    g_nTextureAddressModeV " ++ dq ++ "0" ++ dq ++ " // Wrap";
      EmptyString;
      EmptyString;
      "    VariableState";
      "    {";
      "        " ++ dq ++ "Color" ++ dq;
      "        {";
      "        }";
      "        " ++ dq ++ "CubeParallax" ++ dq;
      "        {";
      "        }";
      "        " ++ dq ++ "Fog" ++ dq;
      "        {";
      "        }";
      "        " ++ dq ++ "Texture" ++ dq;
      "        {";
      "        }";
      "        " ++ dq ++ "Texture Address Mode" ++ dq;
      "        {";
      "        }";
      "    }";
      "}" ].

(** The Moondome VMAT content. *)
Definition get_moondome_vmat_content (sky_texture_path : string) : string :=
  PyStr.join nl (moondome_vmat_lines sky_texture_path).

Context {casing : PyStr.Casing} {ospath : OsPath}.
Variable world : World.

(** Engine texture path for VMAT. *)
Definition sky_texture_path_of (output_path : string) : string :=
  "materials/skybox/" ++ basename output_path.

Definition skybox_vmat_path_of (output_path : string) : string :=
  path_join (dirname output_path)
    ("skybox_" ++ splitext_root (basename output_path) ++ ".vmat").

Definition moondome_vmat_path_of (output_path : string) : string :=
  path_join (dirname output_path)
    ("moondome_" ++ splitext_root (basename output_path) ++ ".vmat").

(** [with open(path, 'w') as f: f.write(content)]: the files it leaves
    on the disk, and whether it completed.  It can raise at [open],
    before anything is on the disk, or at the write or the close, after
    the file was created or truncated: the file then stays. *)
Definition write_text (path content : string) : list fs_event * bool :=
  match write_error world path with
  | None => ([WroteText path content], true)
  | Some _ =>
      match left_behind world path content with
      | Some remains => ([WroteText path remains], false)
      | None => ([], false)
      end
  end.

(** Returns [created_files] and the files left on the disk, in order.
    The two writes share one [try]: an exception in the first skips the
    second, and a path joins [created_files] only after its write
    completed. *)
Definition create_vmat_files (output_path : string)
    (create_skybox create_moondome : bool) : list string * list fs_event :=
  if negb create_skybox && negb create_moondome then ([], [])
  else
    let sky_texture_path := sky_texture_path_of output_path in
    let '(created_files, written, completed) :=
      if create_skybox then
        let skybox_vmat_path := skybox_vmat_path_of output_path in
        let '(files, completed) :=
          write_text skybox_vmat_path (get_ldr_vmat_content sky_texture_path) in
        (if completed then [skybox_vmat_path] else [], files, completed)
      else ([], [], true) in
    if completed && create_moondome then
      let moondome_vmat_path := moondome_vmat_path_of output_path in
      let '(files, completed) :=
        write_text moondome_vmat_path (get_moondome_vmat_content sky_texture_path) in
      ((created_files ++ (if completed then [moondome_vmat_path] else []))%list,
       (written ++ files)%list)
    else (created_files, written).
End Vmat.

(* ================================================================== *)
(** ** The driver: [main] *)

(** What the program hands to the system to show the output folder. *)
Inductive launch :=
| StartFile (folder : string)
| System (command : string).

(** Lines 461-467: [os.startfile] on Windows, otherwise a shell line
    with the folder name between double quotes. *)
Definition open_folder (sys_platform output_folder : string) : launch :=
  if String.eqb sys_platform "win32" then StartFile output_folder
  else if String.eqb sys_platform "darwin" then
    System ("open " ++ PyStr.dq ++ output_folder ++ PyStr.dq)
  else System ("xdg-open " ++ PyStr.dq ++ output_folder ++ PyStr.dq).

(** One run of [main]: the exit status, every file left on the disk, in
    order, the material files reported, what was handed to the system,
    and the exception that ended the run, if one was not caught. *)
Record run := Run {
  exit_code : nat;
  written : list fs_event;
  vmat_files : list string;
  launched : list launch;
  uncaught : option exn
}.

Section Main.
Context {casing : PyStr.Casing} {ospath : OsPath} {pil : Pillow}.
Variable world : World.

(** The user's answers: the files picked, the two material questions,
    and the save-as path (empty when the dialog is cancelled).  An
    exception that leaves [select_skybox_files] is not caught: the
    interpreter prints the traceback and exits with status 1. *)
Definition main (file_paths : list string) (create_skybox create_moondome : bool)
    (output_choice : string) : run :=
  let selection := select_skybox_files file_paths in
  match raised selection with
  | Some e => Run 1 [] [] [] (Some e)
  | None =>
      match returned selection with
      | None => Run 1 [] [] [] None
      | Some [] => Run 1 [] [] [] None
      | Some ((_ :: _) as files) =>
          if String.eqb output_choice EmptyString then Run 0 [] [] [] None
          else
            let output_path := output_choice in
            let st := stitch_skybox world files output_path in
            if success st then
              let '(vmat_files, vmat_written) :=
                create_vmat_files world output_path create_skybox create_moondome in
              let output_folder := dirname output_path in
              Run 0 (saved st ++ vmat_written)%list vmat_files
                [open_folder (platform world) output_folder] None
            else Run 1 (saved st) [] [] None
      end
  end.
End Main.

(* ================================================================== *)
(** ** Vocabulary of the statements *)

(** The name the matcher looks at. *)
Definition filename_of {casing : PyStr.Casing} {ospath : OsPath}
    (file_path : string) : string :=
  PyStr.lower (basename file_path).

(** [face] is the first slot of [slots], in order, one of whose patterns
    occurs in [filename]. *)
Definition first_match (slots : list string) (filename face : string) : Prop :=
  exists before after,
    slots = (before ++ face :: after)%list /\
    face_matches face filename = true /\
    forall g, In g before -> face_matches g filename = false.

(** A Python dictionary has no repeated key. *)
Definition dict_wf {V : Type} (d : Dict.t V) : Prop := NoDup (Dict.keys d).

(** The width that fixes [base_size]: that of the first face loaded. *)
Definition first_face_width {casing : PyStr.Casing} {ospath : OsPath}
    (world : World) (files : Dict.t string) : option nat :=
  match Dict.items files with
  | [] => None
  | (_, path) :: _ =>
      match load_face world path with
      | inr img => Some (width img)
      | inl _ => None
      end
  end.


(** The pixels of a grid cell, in units of the face edge [n]. *)
Definition in_cell (n col row x y : nat) : Prop :=
  n * col <= x < n * col + n /\ n * row <= y < n * row + n.

(** The buffer the loop pastes at [target_slot]: the rule's source image
    after [face_buffer]. *)
Definition pasted_buffer {pil : Pillow} (transforms : Dict.t transform_rule)
    (images : Dict.t Image) (base_size : nat) (target_slot : string) : option Image :=
  let '(source_face, rotation_degrees, flip) :=
    Dict.get_default target_slot (target_slot, 0%Z, None) transforms in
  match Dict.get source_face images with
  | Some img => Some (face_buffer base_size rotation_degrees flip img)
  | None => None
  end.

(** The canvas after the six pastes of [stitch_skybox], for the buffers
    that reach the slots up, left, front, right, back and down. *)
Definition atlas6 (n : nat) (bu bl bf br bb bd : Image) : Image :=
  paste (paste (paste (paste (paste (paste
    (Image_new (n * 4) (n * 3) transparent)
    bu (n * 1, n * 0)) bl (n * 0, n * 1)) bf (n * 1, n * 1))
    br (n * 2, n * 1)) bb (n * 3, n * 1)) bd (n * 1, n * 2).

(* ================================================================== *)
(** ** Example inputs *)

Module Examples.

Definition solid (w h : nat) (shade : N) : Image :=
  Image_new w h (RGBA shade shade shade 255).

(** A Linux machine whose file system holds the given images; every
    write succeeds. *)
Definition world_of (disk : Dict.t Image) : World :=
  {| image_open := fun path =>
       match Dict.get path disk with
       | Some img => inr img
       | None => inl "cannot identify image file"
       end;
     vtf_get_image := fun _ => inl "no decoder";
     write_error := fun _ => None;
     left_behind := fun _ _ => None;
     platform := "linux" |}.

(** The same, on a read-only destination: [open] raises. *)
Definition read_only (w : World) : World :=
  {| image_open := image_open w;
     vtf_get_image := vtf_get_image w;
     write_error := fun _ => Some "Permission denied";
     left_behind := fun _ _ => None;
     platform := platform w |}.


Definition sky_files : Dict.t string :=
  [ ("up", "/sky/sky_up.png"); ("down", "/sky/sky_dn.png");
    ("left", "/sky/sky_lf.png"); ("right", "/sky/sky_rt.png");
    ("front", "/sky/sky_ft.png"); ("back", "/sky/sky_bk.png") ].

(** The same assignment, listed with [down] first. *)
Definition sky_files_down_first : Dict.t string :=
  [ ("down", "/sky/sky_dn.png"); ("up", "/sky/sky_up.png");
    ("left", "/sky/sky_lf.png"); ("right", "/sky/sky_rt.png");
    ("front", "/sky/sky_ft.png"); ("back", "/sky/sky_bk.png") ].

(** Six square faces of edge 2, one shade each. *)
Definition square_disk : Dict.t Image :=
  [ ("/sky/sky_up.png", solid 2 2 1); ("/sky/sky_dn.png", solid 2 2 2);
    ("/sky/sky_lf.png", solid 2 2 3); ("/sky/sky_rt.png", solid 2 2 4);
    ("/sky/sky_ft.png", solid 2 2 5); ("/sky/sky_bk.png", solid 2 2 6) ].

(** Edge 1, except that the [back] file is one pixel wide and two tall. *)
Definition tall_back_disk : Dict.t Image :=
  [ ("/sky/sky_up.png", solid 1 1 1); ("/sky/sky_dn.png", solid 1 1 2);
    ("/sky/sky_lf.png", solid 1 1 3); ("/sky/sky_rt.png", solid 1 1 4);
    ("/sky/sky_ft.png", solid 1 1 5); ("/sky/sky_bk.png", solid 1 2 6) ].

(** Edge 1 for [up], edge 2 for the other five. *)
Definition mixed_disk : Dict.t Image :=
  [ ("/sky/sky_up.png", solid 1 1 1); ("/sky/sky_dn.png", solid 2 2 2);
    ("/sky/sky_lf.png", solid 2 2 3); ("/sky/sky_rt.png", solid 2 2 4);
    ("/sky/sky_ft.png", solid 2 2 5); ("/sky/sky_bk.png", solid 2 2 6) ].

(** Two files that both read as [up]. *)
Definition two_ups : list string :=
  ["/sky/day_up.png"; "/sky/night_up.png"; "/sky/sky_lf.png";
   "/sky/sky_rt.png"; "/sky/sky_ft.png"; "/sky/sky_bk.png"].

(** Two files that read as [up] and two that read as [down]; the
    second [down] file is picked before the second [up] file. *)
Definition ups_and_downs : list string :=
  ["/sky/day_up.png"; "/sky/day_dn.png"; "/sky/night_dn.png";
   "/sky/night_up.png"; "/sky/sky_lf.png"; "/sky/sky_rt.png"].

(** [left_pz.png] holds a pattern of [left] and one of [up]. *)
Definition shared_left : list string :=
  ["/sky/left_pz.png"; "/sky/sky_left.png"; "/sky/sky_dn.png";
   "/sky/sky_rt.png"; "/sky/sky_ft.png"; "/sky/sky_bk.png"].

(** The [up] file renamed so that no pattern occurs in it. *)
Definition topside : list string :=
  ["/sky/sky_topside.png"; "/sky/sky_dn.png"; "/sky/sky_lf.png";
   "/sky/sky_rt.png"; "/sky/sky_ft.png"; "/sky/sky_bk.png"].

(** The [up] and the [down] files renamed so that no pattern occurs in
    either. *)
Definition topside_underside : list string :=
  ["/sky/sky_topside.png"; "/sky/sky_underside.png"; "/sky/sky_lf.png";
   "/sky/sky_rt.png"; "/sky/sky_ft.png"; "/sky/sky_bk.png"].


End Examples.

(* ================================================================== *)
(** ** Vocabulary of the further properties *)

(** How an exception leaves [stitch_skybox]. *)
Definition failed_run (e : exn) : stitched :=
  match e with
  | ImportError msg => Stitched false msg []
  | Exception msg => Stitched false ("Error creating skybox: " ++ msg) []
  | NameError name =>
      Stitched false ("Error creating skybox: name '" ++ name ++ "' is not defined") []
  end.

(** More example inputs. *)
Module Cases.

(** A world where the VTF decoder is installed and answers [reply]. *)
Definition with_decoder (w : World) (reply : string + Image) : World :=
  {| image_open := image_open w;
     vtf_get_image := fun _ => reply;
     write_error := write_error w;
     left_behind := left_behind w;
     platform := platform w |}.

(** A full disk: [open] creates the file, and the write raises after
    the first [kept] characters. *)
Definition disk_full (w : World) (kept : nat) : World :=
  {| image_open := image_open w;
     vtf_get_image := vtf_get_image w;
     write_error := fun _ => Some "No space left on device";
     left_behind := fun _ content => Some (substring 0 kept content);
     platform := platform w |}.

(** Only the [up] face is listed. *)
Definition up_only : Dict.t string := [("up", "/sky/sky_up.png")].

(** The [up] face is a file that is not on the disk. *)
Definition up_absent : Dict.t string :=
  [ ("up", "/sky/absent.png"); ("down", "/sky/sky_dn.png");
    ("left", "/sky/sky_lf.png"); ("right", "/sky/sky_rt.png");
    ("front", "/sky/sky_ft.png"); ("back", "/sky/sky_bk.png") ].

(** The [down] face is a VTF file, named in upper case. *)
Definition down_vtf : Dict.t string :=
  [ ("up", "/sky/sky_up.png"); ("down", "/sky/SKY_DN.VTF");
    ("left", "/sky/sky_lf.png"); ("right", "/sky/sky_rt.png");
    ("front", "/sky/sky_ft.png"); ("back", "/sky/sky_bk.png") ].

(** A second resampling kernel: it returns a blank image of the size
    asked for. *)
Definition blank_pillow : Pillow := {|
  resize := fun _ wh => Image_new (fst wh) (snd wh) transparent;
  resize_width := fun _ _ _ => eq_refl;
  resize_height := fun _ _ _ => eq_refl;
  rotate_affine := fun im _ => im;
  rotate_affine_width := fun _ _ => eq_refl;
  rotate_affine_height := fun _ _ => eq_refl
|}.

End Cases.

(** Goes through the entries of a literal dictionary. *)
Ltac each_entry I :=
  simpl in I; repeat (destruct I as [I | I]; [injection I as <- <-|]); [ .. | destruct I].

(* ================================================================== *)
(** ** Tactics *)

(** Decides the box tests of nested pastes by arithmetic. *)
Ltac decide_boxes :=
  repeat (match goal with
          | |- context [(?a <=? ?b)%nat] => destruct (Nat.leb_spec a b); try lia
          | |- context [(?a <? ?b)%nat] => destruct (Nat.ltb_spec a b); try lia
          end; cbn [andb]).

Ltac open_atlas :=
  unfold atlas6, paste, Image_new, in_cell in *; cbn [data width height] in *.

(** Shows that the first slot of the order matching a file name is the
    one after [before]. *)
Ltac first_slot before after :=
  exists before, after; split; [reflexivity | split; [vm_compute; reflexivity |]];
  intros ? I; simpl in I;
  repeat (destruct I as [<- | I]; [vm_compute; reflexivity |]); destruct I.

(** A literal dictionary has distinct keys. *)
Ltac no_dup := unfold dict_wf; cbn; repeat constructor; cbn; intuition discriminate.



(* ================================================================== *)
(** ** Facts about strings *)

Lemma append_assoc (a b c : string) : (a ++ b) ++ c = a ++ (b ++ c).
Proof. induction a as [|x a IH]; simpl; [reflexivity | now rewrite IH]. Qed.

Lemma startswith_spec (s p : string) :
  PyStr.startswith s p = true <-> exists b, s = p ++ b.
Proof.
  revert s; induction p as [|a p IH]; intros s; simpl.
  - split; [intros _; now exists s | destruct s; reflexivity].
  - destruct s as [|c s].
    + split; [discriminate | intros [b Hb]; discriminate].
    + simpl. rewrite andb_true_iff, Ascii.eqb_eq, IH. split.
      * intros [-> [b ->]]. now exists b.
      * intros [b Hb]. injection Hb as -> ->. split; [reflexivity | now exists b].
Qed.

Lemma contains_spec (p s : string) :
  PyStr.contains p s = true <-> PyStr.Substring p s.
Proof.
  unfold PyStr.Substring. induction s as [|c s IH].
  - cbn [PyStr.contains]. rewrite orb_false_r, startswith_spec. split.
    + intros [b Hb]. now exists EmptyString, b.
    + intros [a [b Hab]]. destruct a; [now exists b | discriminate].
  - cbn [PyStr.contains]. rewrite orb_true_iff, startswith_spec, IH. split.
    + intros [[b Hb] | [a [b Hab]]].
      * now exists EmptyString, b.
      * exists (String c a), b. simpl. now rewrite Hab.
    + intros [a [b Hab]]. destruct a as [|x a].
      * left. now exists b.
      * right. simpl in Hab. injection Hab as _ ->. now exists a, b.
Qed.

(* ================================================================== *)
(** ** Facts about dictionaries *)

Section DictFacts.
Context {V : Type}.
Implicit Types (d : Dict.t V) (k : string) (v : V).

Lemma get_set d k k' v :
  Dict.get k (Dict.set k' v d) = if String.eqb k k' then Some v else Dict.get k d.
Proof.
  induction d as [|[k0 v0] d IH]; simpl.
  - reflexivity.
  - destruct (String.eqb_spec k' k0) as [->|Hne]; simpl.
    + destruct (String.eqb k k0); reflexivity.
    + rewrite IH. destruct (String.eqb_spec k k0) as [->|]; [|reflexivity].
      destruct (String.eqb_spec k0 k'); [congruence | reflexivity].
Qed.

Lemma mem_set d k k' v :
  Dict.mem k (Dict.set k' v d) = String.eqb k k' || Dict.mem k d.
Proof.
  unfold Dict.mem. rewrite get_set. destruct (String.eqb k k'); reflexivity.
Qed.

Lemma get_none_not_key d k : Dict.get k d = None <-> ~ In k (Dict.keys d).
Proof.
  induction d as [|[k0 v0] d IH]; simpl.
  - tauto.
  - destruct (String.eqb_spec k k0) as [->|Hne].
    + split; [discriminate | tauto].
    + rewrite IH. split; [intros H [E|I]; [congruence | tauto] | tauto].
Qed.
End DictFacts.

(* ================================================================== *)
(** ** Facts about the matcher *)

Lemma first_match_unique slots filename f g :
  first_match slots filename f -> first_match slots filename g -> f = g.
Proof.
  revert f g. induction slots as [|s slots IH]; intros f g
    (b1 & a1 & E1 & M1 & N1) (b2 & a2 & E2 & M2 & N2).
  - destruct b1; discriminate.
  - destruct b1 as [|x b1], b2 as [|y b2]; simpl in *.
    + congruence.
    + injection E1 as <- _. injection E2 as <- _.
      specialize (N2 s (or_introl eq_refl)). congruence.
    + injection E1 as <- _. injection E2 as <- _.
      specialize (N1 s (or_introl eq_refl)). congruence.
    + injection E1 as <- E1. injection E2 as <- E2.
      apply IH.
      * exists b1, a1. repeat split; auto.
      * exists b2, a2. repeat split; auto.
Qed.

Lemma first_match_in slots filename f :
  first_match slots filename f -> In f slots /\ face_matches f filename = true.
Proof.
  intros (b & a & -> & M & _). split; [|exact M].
  apply in_or_app. right. now left.
Qed.

(** The inner loop stops at the first slot whose patterns occur. *)
Lemma scan_slots_spec slots filename file_path files :
  match scan_slots slots filename file_path files with
  | SlotDuplicate face =>
      first_match slots filename face /\ Dict.mem face files = true
  | SlotAssigned face files' =>
      first_match slots filename face /\ Dict.mem face files = false /\
      files' = Dict.set face file_path files
  | SlotUnmatched =>
      forall g, In g slots -> face_matches g filename = false
  end.
Proof.
  induction slots as [|s slots IH]; simpl.
  - tauto.
  - destruct (face_matches s filename) eqn:M.
    + assert (F : first_match (s :: slots) filename s).
      { exists [], slots. repeat split; [exact M | intros g []]. }
      destruct (Dict.mem s files) eqn:D; auto.
    + destruct (scan_slots slots filename file_path files) as [face|face files'|].
      * destruct IH as [(b & a & -> & M' & N) D]. split; [|exact D].
        exists (s :: b), a. repeat split; [exact M'|].
        intros g [<-|I]; auto.
      * destruct IH as [(b & a & -> & M' & N) D]. split; [|exact D].
        exists (s :: b), a. repeat split; [exact M'|].
        intros g [<-|I]; auto.
      * intros g [<-|I]; auto.
Qed.

(* ================================================================== *)
(** ** Identification: the claims *)

Section IdentifyClaims.
Context {casing : PyStr.Casing} {ospath : OsPath}.

(** Reading [messagebox] at line 56 ends every call, whatever the file
    dialog would have answered. *)
Lemma select_raises file_paths :
  select_skybox_files file_paths
  = Selection None None (Some (NameError "messagebox")).
Proof. reflexivity. Qed.

(** Files that take distinct free slots are scanned through; the slots
    taken afterwards are those taken before and theirs. *)
Lemma scan_files_prefix l1 : forall rest files unm,
  (forall q h, In q l1 -> first_match TARGET_SLOTS (filename_of q) h ->
               Dict.mem h files = false) ->
  (forall a q1 b q2 c h,
      l1 = (a ++ q1 :: b ++ q2 :: c)%list ->
      first_match TARGET_SLOTS (filename_of q1) h ->
      first_match TARGET_SLOTS (filename_of q2) h -> False) ->
  exists files' unm',
    scan_files (l1 ++ rest) files unm = scan_files rest files' unm' /\
    forall h, Dict.mem h files' = true <->
              Dict.mem h files = true \/
              exists q, In q l1 /\ first_match TARGET_SLOTS (filename_of q) h.
Proof.
  induction l1 as [|q l1 IH]; intros rest files unm Free Apart.
  - exists files, unm. split; [reflexivity|]. intros h. split; [now left|].
    intros [H|(q & [] & _)]. exact H.
  - cbn [app scan_files]; fold (filename_of q).
    pose proof (scan_slots_spec TARGET_SLOTS (filename_of q) q files) as S.
    destruct (scan_slots TARGET_SLOTS (filename_of q) q files) as [face|face files2|].
    + destruct S as [F D]. rewrite (Free q face (or_introl eq_refl) F) in D. discriminate.
    + destruct S as (F & D & ->).
      destruct (IH rest (Dict.set face q files) unm) as (files' & unm' & E & M).
      * intros q' h I F'. rewrite mem_set. apply orb_false_iff. split.
        -- apply String.eqb_neq. intros ->.
           apply in_split in I as (b & c & ->).
           exact (Apart [] q b q' c face eq_refl F F').
        -- apply (Free q' h); [now right | exact F'].
      * intros a q1 b q2 c h El. apply (Apart (q :: a) q1 b q2 c h).
        now rewrite El.
      * exists files', unm'. split; [exact E|]. intros h. rewrite M, mem_set.
        rewrite orb_true_iff, String.eqb_eq. split.
        -- intros [[-> | H] | (q' & I & F')].
           ++ right. exists q. split; [now left | exact F].
           ++ now left.
           ++ right. exists q'. split; [now right | exact F'].
        -- intros [H | (q' & [<- | I] & F')].
           ++ left. now right.
           ++ left. left. exact (first_match_unique _ _ _ _ F' F).
           ++ right. exists q'. split; assumption.
    + destruct (IH rest files (unm ++ [basename q])%list) as (files' & unm' & E & M).
      * intros q' h I F'. apply (Free q' h); [now right | exact F'].
      * intros a q1 b q2 c h El. apply (Apart (q :: a) q1 b q2 c h).
        now rewrite El.
      * exists files', unm'. split; [exact E|]. intros h. rewrite M. split.
        -- intros [H | (q' & I & F')]; [now left|].
           right. exists q'. split; [now right | exact F'].
        -- intros [H | (q' & [<- | I] & F')]; [now left | |].
           ++ apply first_match_in in F' as [I' M']. rewrite (S h I') in M'. discriminate.
           ++ right. exists q'. split; assumption.
Qed.

(** C4 (amended).  When two of the six selected files are assigned the
    same slot (a file goes to the first slot, in the order up, left,
    front, right, back, down, one of whose patterns occurs in its
    lower-cased base name), no mapping is returned.  The matching loop
    stops at the first file, in the order picked, whose slot is already
    taken, and its duplicate-face error is the fixed sentence around the
    name of exactly that slot: no file name is part of it.  What the
    files after that one are, and whether some slot has no file at all,
    plays no part, so the incomplete-set error is not the one built. *)
Theorem duplicate_slot_is_reported :
  forall file_paths earlier clash later slot,
    List.length file_paths = 6 ->
    file_paths = (earlier ++ clash :: later)%list ->
    (forall a q1 b q2 c h,
        earlier = (a ++ q1 :: b ++ q2 :: c)%list ->
        first_match TARGET_SLOTS (filename_of q1) h ->
        first_match TARGET_SLOTS (filename_of q2) h -> False) ->
    first_match TARGET_SLOTS (filename_of clash) slot ->
    (exists q, In q earlier /\ first_match TARGET_SLOTS (filename_of q) slot) ->
    faces_of_selection file_paths
    = Selection
        (Some (ErrorBox "Duplicate Face"
                 ("Multiple files detected for '" ++ slot ++ "' face." ++ PyStr.nl ++
                  "Please ensure each face has only one image.")))
        None None /\
    returned (select_skybox_files file_paths) = None.
Proof.
  intros file_paths earlier clash later slot L E Apart F Taken.
  split; [|reflexivity].
  assert (S : scan_files file_paths [] [] = ScanDuplicate slot).
  { destruct (scan_files_prefix earlier (clash :: later) [] []) as (files' & unm' & P & M).
    - reflexivity.
    - exact Apart.
    - rewrite E, P. cbn [scan_files]; fold (filename_of clash).
      pose proof (scan_slots_spec TARGET_SLOTS (filename_of clash) clash files') as Sc.
      assert (D : Dict.mem slot files' = true) by (apply M; now right).
      destruct (scan_slots TARGET_SLOTS (filename_of clash) clash files')
        as [face|face files2|].
      + destruct Sc as [F' _]. now rewrite (first_match_unique _ _ _ _ F' F).
      + destruct Sc as (F' & D' & _).
        rewrite (first_match_unique _ _ _ _ F' F), D in D'. discriminate.
      + apply first_match_in in F as [I Mt]. rewrite (Sc slot I) in Mt. discriminate. }
  unfold faces_of_selection. rewrite S, L.
  destruct file_paths; [discriminate L | reflexivity].
Qed.
End IdentifyClaims.

Lemma duplicate_slot_is_reported_witness :
  List.length Examples.ups_and_downs = 6 /\
  first_match TARGET_SLOTS (filename_of "/sky/day_dn.png") "down" /\
  first_match TARGET_SLOTS (filename_of "/sky/night_dn.png") "down" /\
  faces_of_selection Examples.ups_and_downs
  = Selection
      (Some (ErrorBox "Duplicate Face"
               ("Multiple files detected for 'down' face." ++ PyStr.nl ++
                "Please ensure each face has only one image.")))
      None None /\
  returned (select_skybox_files Examples.ups_and_downs) = None.
Proof.
  assert (Fu : first_match TARGET_SLOTS (filename_of "/sky/day_up.png") "up")
    by first_slot (@nil string) ["left"; "front"; "right"; "back"; "down"].
  assert (F1 : first_match TARGET_SLOTS (filename_of "/sky/day_dn.png") "down")
    by first_slot ["up"; "left"; "front"; "right"; "back"] (@nil string).
  assert (F2 : first_match TARGET_SLOTS (filename_of "/sky/night_dn.png") "down")
    by first_slot ["up"; "left"; "front"; "right"; "back"] (@nil string).
  split; [reflexivity|]. split; [exact F1|]. split; [exact F2|].
  apply (duplicate_slot_is_reported Examples.ups_and_downs
           ["/sky/day_up.png"; "/sky/day_dn.png"] "/sky/night_dn.png"
           ["/sky/night_up.png"; "/sky/sky_lf.png"; "/sky/sky_rt.png"] "down").
  - reflexivity.
  - reflexivity.
  - intros a q1 b q2 c h El G1 G2.
    assert (q1 = "/sky/day_up.png" /\ q2 = "/sky/day_dn.png") as [-> ->].
    { destruct a as [|x [|y [|z a]]]; cbn [app] in El.
      - injection El as <- El. destruct b as [|y [|z b]]; cbn [app] in El.
        + now injection El as <- _.
        + injection El as _ El. destruct c; discriminate El.
        + discriminate El.
      - destruct b; discriminate El.
      - discriminate El.
      - discriminate El. }
    pose proof (first_match_unique _ _ _ _ G1 Fu) as ->.
    pose proof (first_match_unique _ _ _ _ G2 F1). discriminate.
  - exact F2.
  - exists "/sky/day_dn.png". split; [simpl; tauto | exact F1].
Defined.

(** C4, as stated, fails.  With two files that both read as [up], the
    duplicate-face error of the matcher says which face is duplicated
    and contains neither file name; the call itself shows no error box
    at all, because reading [messagebox] ends it.  And two files in
    which a pattern of [left] occurs need not clash: [left_pz.png] is
    taken by [up], and the matching completes with a mapping. *)
Lemma duplicate_box_names_no_file :
  (exists box,
      faces_of_selection Examples.two_ups = Selection (Some box) None None /\
      box_title box = "Duplicate Face" /\
      box_message box
      = "Multiple files detected for 'up' face." ++ PyStr.nl ++
        "Please ensure each face has only one image." /\
      PyStr.contains "day_up.png" (box_message box) = false /\
      PyStr.contains "night_up.png" (box_message box) = false) /\
  select_skybox_files Examples.two_ups
  = Selection None None (Some (NameError "messagebox")) /\
  (PyStr.contains "left_" (filename_of "/sky/left_pz.png") = true /\
   PyStr.contains "_left." (filename_of "/sky/sky_left.png") = true /\
   In "left_" (Dict.get_default "left" [] face_patterns) /\
   In "_left." (Dict.get_default "left" [] face_patterns) /\
   faces_of_selection Examples.shared_left
   = Selection None
       (Some [ ("up", "/sky/left_pz.png"); ("left", "/sky/sky_left.png");
               ("down", "/sky/sky_dn.png"); ("right", "/sky/sky_rt.png");
               ("front", "/sky/sky_ft.png"); ("back", "/sky/sky_bk.png") ])
       None).
Proof.
  split; [|split; [reflexivity|]].
  - eexists. split; [vm_compute; reflexivity|]. repeat split; vm_compute; reflexivity.
  - split; [vm_compute; reflexivity|]. split; [vm_compute; reflexivity|].
    split; [simpl; tauto|]. split; [simpl; tauto|]. vm_compute; reflexivity.
Qed.

(** C5.  Matching the six files of a set whose [up] file was renamed to
    [sky_topside.png] would end in the "Cannot Auto-Detect Faces" box
    that counts five matched faces, names [up] as missing and lists
    [sky_topside.png] as unmatched; with the [down] file renamed as
    well, the box would count four, name [up] and [down], and list both
    files.  The call never gets there: it raises at line 56, shows no
    box and returns nothing. *)
Theorem incomplete_set_ends_in_name_error :
  select_skybox_files Examples.topside
  = Selection None None (Some (NameError "messagebox")) /\
  select_skybox_files Examples.topside_underside
  = Selection None None (Some (NameError "messagebox")) /\
  faces_of_selection Examples.topside
  = Selection
      (Some (ErrorBox "Cannot Auto-Detect Faces"
               ("Could not automatically detect which image corresponds to which skybox face."
                  ++ PyStr.nl ++ PyStr.nl ++
                "Matched: 5/6 faces" ++ PyStr.nl ++
                "Missing: up" ++ PyStr.nl ++
                "Unmatched files: sky_topside.png" ++ PyStr.nl ++ PyStr.nl ++
                "Please ensure your files are named with face indicators:" ++ PyStr.nl ++
                "Examples: skybox_up.png, left.tga, mysky_front.jpg, etc.")))
      None None /\
  faces_of_selection Examples.topside_underside
  = Selection
      (Some (ErrorBox "Cannot Auto-Detect Faces"
               ("Could not automatically detect which image corresponds to which skybox face."
                  ++ PyStr.nl ++ PyStr.nl ++
                "Matched: 4/6 faces" ++ PyStr.nl ++
                "Missing: up, down" ++ PyStr.nl ++
                "Unmatched files: sky_topside.png, sky_underside.png"
                  ++ PyStr.nl ++ PyStr.nl ++
                "Please ensure your files are named with face indicators:" ++ PyStr.nl ++
                "Examples: skybox_up.png, left.tga, mysky_front.jpg, etc.")))
      None None.
Proof.
  split; [reflexivity|]. split; [reflexivity|].
  split; vm_compute; reflexivity.
Qed.

(** C10.  In [left_pz.png] a pattern of [left] (five characters) and a
    pattern of [up] (three characters) occur.  The inner loop gives the
    file to [up], the earlier slot in the order tested, and the matching
    of the whole selection would return it under [up].  The call never
    gets there: it raises at line 56 and assigns nothing. *)
Theorem two_slot_name_ends_in_name_error :
  In "left_" (Dict.get_default "left" [] face_patterns) /\
  In "pz." (Dict.get_default "up" [] face_patterns) /\
  PyStr.contains "left_" (filename_of "/sky/left_pz.png") = true /\
  PyStr.contains "pz." (filename_of "/sky/left_pz.png") = true /\
  scan_slots TARGET_SLOTS (filename_of "/sky/left_pz.png") "/sky/left_pz.png" []
  = SlotAssigned "up" [("up", "/sky/left_pz.png")] /\
  faces_of_selection Examples.shared_left
  = Selection None
      (Some [ ("up", "/sky/left_pz.png"); ("left", "/sky/sky_left.png");
              ("down", "/sky/sky_dn.png"); ("right", "/sky/sky_rt.png");
              ("front", "/sky/sky_ft.png"); ("back", "/sky/sky_bk.png") ])
      None /\
  select_skybox_files Examples.shared_left
  = Selection None None (Some (NameError "messagebox")).
Proof.
  split; [simpl; tauto|]. split; [simpl; tauto|].
  repeat split; vm_compute; reflexivity.
Qed.

(* ================================================================== *)
(** ** Facts about the canvas *)

Section Canvas.
Variables (n : nat) (bu bl bf br bb bd : Image).
Hypothesis Wu : width bu = n.
Hypothesis Wl : width bl = n.
Hypothesis Wf : width bf = n.
Hypothesis Wr : width br = n.
Hypothesis Wb : width bb = n.
Hypothesis Wd : width bd = n.

Let atlas := atlas6 n bu bl bf br bb bd.

Lemma atlas6_up x y :
  in_cell n 1 0 x y -> y - n * 0 < height bu ->
  data atlas x y = data bu (x - n * 1) (y - n * 0).
Proof. subst atlas. open_atlas. intros [Hx Hy] Hh. rewrite Wu, Wl, Wf, Wr, Wb, Wd. decide_boxes. reflexivity. Qed.

Lemma atlas6_left x y :
  in_cell n 0 1 x y -> y - n * 1 < height bl ->
  data atlas x y = data bl (x - n * 0) (y - n * 1).
Proof. subst atlas. open_atlas. intros [Hx Hy] Hh. rewrite Wu, Wl, Wf, Wr, Wb, Wd. decide_boxes. reflexivity. Qed.

Lemma atlas6_front x y :
  in_cell n 1 1 x y -> y - n * 1 < height bf ->
  data atlas x y = data bf (x - n * 1) (y - n * 1).
Proof. subst atlas. open_atlas. intros [Hx Hy] Hh. rewrite Wu, Wl, Wf, Wr, Wb, Wd. decide_boxes. reflexivity. Qed.

Lemma atlas6_right x y :
  in_cell n 2 1 x y -> y - n * 1 < height br ->
  data atlas x y = data br (x - n * 2) (y - n * 1).
Proof. subst atlas. open_atlas. intros [Hx Hy] Hh. rewrite Wu, Wl, Wf, Wr, Wb, Wd. decide_boxes. reflexivity. Qed.

Lemma atlas6_back x y :
  in_cell n 3 1 x y -> y - n * 1 < height bb ->
  data atlas x y = data bb (x - n * 3) (y - n * 1).
Proof. subst atlas. open_atlas. intros [Hx Hy] Hh. rewrite Wu, Wl, Wf, Wr, Wb, Wd. decide_boxes. reflexivity. Qed.

Lemma atlas6_down x y :
  in_cell n 1 2 x y -> y - n * 2 < height bd ->
  data atlas x y = data bd (x - n * 1) (y - n * 2).
Proof. subst atlas. open_atlas. intros [Hx Hy] Hh. rewrite Wu, Wl, Wf, Wr, Wb, Wd. decide_boxes. reflexivity. Qed.

(** The three unused cells of the top row are never written. *)
Lemma atlas6_top_empty col x y :
  col = 0 \/ col = 2 \/ col = 3 ->
  in_cell n col 0 x y -> data atlas x y = transparent.
Proof.
  subst atlas. open_atlas. intros Hc [Hx Hy]. rewrite Wu, Wl, Wf, Wr, Wb, Wd.
  destruct Hc as [-> | [-> | ->]]; decide_boxes; reflexivity.
Qed.

(** An unused cell of the bottom row is written only by a buffer of
    the middle row that is taller than the edge. *)
Lemma atlas6_bottom_empty col above x y :
  (col = 0 /\ above = bl) \/ (col = 2 /\ above = br) \/ (col = 3 /\ above = bb) ->
  height above <= n ->
  in_cell n col 2 x y -> data atlas x y = transparent.
Proof.
  subst atlas. open_atlas. intros Hc Hh [Hx Hy]. rewrite Wu, Wl, Wf, Wr, Wb, Wd.
  destruct Hc as [(-> & ->) | [(-> & ->) | (-> & ->)]]; decide_boxes; reflexivity.
Qed.

Lemma atlas6_in_range x y :
  x < n * 4 -> y < n * 3 -> getpixel atlas x y = Some (data atlas x y).
Proof.
  intros Hx Hy. unfold getpixel.
  change (width atlas) with (n * 4). change (height atlas) with (n * 3).
  destruct (Nat.ltb_spec x (n * 4)); [|lia].
  destruct (Nat.ltb_spec y (n * 3)); [|lia]. reflexivity.
Qed.
End Canvas.

(* ================================================================== *)
(** ** Facts about loading and composing *)

Section DictOrder.
Context {V : Type}.

Lemma get_in (d : Dict.t V) k v : Dict.get k d = Some v -> In (k, v) d.
Proof.
  induction d as [|[k0 v0] d IH]; simpl; [discriminate|].
  destruct (String.eqb_spec k k0) as [->|]; [intros [= ->]; now left | auto].
Qed.

Lemma in_get (d : Dict.t V) k v : dict_wf d -> In (k, v) d -> Dict.get k d = Some v.
Proof.
  unfold dict_wf, Dict.keys. induction d as [|[k0 v0] d IH]; simpl; [tauto|].
  intros ND [E|I].
  - injection E as -> ->. now rewrite String.eqb_refl.
  - inversion ND as [|? ? Hn ND']; subst.
    destruct (String.eqb_spec k k0) as [->|]; [|auto].
    destruct Hn. change k0 with (fst (k0, v)). now apply in_map.
Qed.
End DictOrder.

Section StitchFacts.
Context {casing : PyStr.Casing} {ospath : OsPath} {pil : Pillow}.
Variable world : World.

Lemma load_images_keeps_base items : forall images b imgs bs,
  load_images world items images (Some b) = inr (imgs, bs) -> bs = Some b.
Proof.
  induction items as [|[f p] rest IH]; intros images b imgs bs H; simpl in H.
  - now injection H as _ <-.
  - destruct (load_face world p); [discriminate | eauto].
Qed.

Lemma load_images_first f p rest images imgs bs :
  load_images world ((f, p) :: rest) images None = inr (imgs, bs) ->
  exists img, load_face world p = inr img /\ bs = Some (width img).
Proof.
  simpl. destruct (load_face world p) as [e|img]; [discriminate|].
  intros H. exists img. split; [reflexivity|]. eapply load_images_keeps_base; eauto.
Qed.

Lemma load_images_base files images n :
  load_images world (Dict.items files) [] None = inr (images, Some n) ->
  first_face_width world files = Some n.
Proof.
  unfold first_face_width. destruct (Dict.items files) as [|[f p] rest].
  - discriminate.
  - intros H. destruct (load_images_first _ _ _ _ _ _ H) as (img & -> & E).
    now symmetry.
Qed.

(** Every listed file was decoded. *)
Lemma load_images_all items : forall images b imgs bs,
  load_images world items images b = inr (imgs, bs) ->
  forall f p, In (f, p) items -> exists img, load_face world p = inr img.
Proof.
  induction items as [|[f0 p0] rest IH]; intros images b imgs bs H f p I.
  - destruct I.
  - simpl in H. destruct (load_face world p0) as [e|img] eqn:L; [discriminate|].
    destruct I as [E|I].
    + injection E as <- <-. eauto.
    + eapply IH; eauto.
Qed.

Lemma load_images_succeeds items : forall images b,
  (forall f p, In (f, p) items -> exists img, load_face world p = inr img) ->
  exists imgs bs, load_images world items images b = inr (imgs, bs).
Proof.
  induction items as [|[f0 p0] rest IH]; intros images b H; simpl.
  - eauto.
  - destruct (H f0 p0 (or_introl eq_refl)) as [img ->].
    apply IH. intros f p I. apply (H f p). now right.
Qed.

(** In a dictionary, each face ends up with the image of its file. *)
Lemma load_images_get items : forall images b imgs bs,
  load_images world items images b = inr (imgs, bs) ->
  NoDup (map fst items) ->
  forall k,
    Dict.get k imgs =
    match Dict.get k items with
    | Some p => match load_face world p with inr img => Some img | inl _ => None end
    | None => Dict.get k images
    end.
Proof.
  induction items as [|[f p] rest IH]; intros images b imgs bs H ND k.
  - simpl in *. now injection H as <- _.
  - simpl in H. destruct (load_face world p) as [e|img] eqn:L; [discriminate|].
    inversion ND as [|? ? Hn ND']; subst.
    rewrite (IH _ _ _ _ H ND' k). simpl.
    destruct (String.eqb_spec k f) as [->|Hne].
    + rewrite L.
      assert (G : Dict.get f rest = None) by (now apply get_none_not_key).
      rewrite G, get_set, String.eqb_refl. reflexivity.
    + destruct (Dict.get k rest); [reflexivity|].
      rewrite get_set. destruct (String.eqb_spec k f); [congruence | reflexivity].
Qed.

Lemma fit_to_base_width n img : width (fit_to_base n img) = n.
Proof.
  unfold fit_to_base. destruct (Nat.eqb_spec (width img) n); cbn [negb].
  - assumption.
  - apply resize_width.
Qed.

Lemma fit_to_base_resized n img :
  width img <> n -> size (fit_to_base n img) = (n, n).
Proof.
  intros H. unfold fit_to_base, size.
  destruct (Nat.eqb_spec (width img) n); [contradiction|]. cbn [negb].
  now rewrite resize_width, resize_height.
Qed.

Lemma fit_to_base_kept n img : width img = n -> fit_to_base n img = img.
Proof.
  intros H. unfold fit_to_base. destruct (Nat.eqb_spec (width img) n); [reflexivity | contradiction].
Qed.

(** The loop reads [images] through lookups only. *)
Lemma paste_slots_ext transforms slots images1 images2 n :
  (forall k, Dict.get k images1 = Dict.get k images2) ->
  forall canvas,
    paste_slots transforms slots images1 n canvas
    = paste_slots transforms slots images2 n canvas.
Proof.
  intros E. induction slots as [|s slots IH]; intros canvas; cbn [paste_slots]; [reflexivity|].
  destruct (Dict.get_default s (s, 0%Z, None) transforms) as [[src deg] flip].
  rewrite E. destruct (Dict.get src images2); [|reflexivity].
  destruct (Dict.get s (COORDS n)); [apply IH | reflexivity].
Qed.

(** With the default table the loop is six pastes. *)
Lemma paste_slots_default images n final :
  paste_slots DEFAULT_TRANSFORMS TARGET_SLOTS images n
    (Image_new (n * 4) (n * 3) transparent) = inr final ->
  exists iu il ifr ir ib id,
    Dict.get "up" images = Some iu /\ Dict.get "left" images = Some il /\
    Dict.get "front" images = Some ifr /\ Dict.get "right" images = Some ir /\
    Dict.get "back" images = Some ib /\ Dict.get "down" images = Some id /\
    final = atlas6 n (fit_to_base n iu) (fit_to_base n ib) (fit_to_base n ir)
                     (fit_to_base n ifr) (fit_to_base n il) (fit_to_base n id).
Proof.
  cbn [paste_slots TARGET_SLOTS].
  change (Dict.get_default "up" ("up", 0%Z, None) DEFAULT_TRANSFORMS) with ("up", 0%Z, @None Transpose).
  change (Dict.get_default "left" ("left", 0%Z, None) DEFAULT_TRANSFORMS) with ("back", 0%Z, @None Transpose).
  change (Dict.get_default "front" ("front", 0%Z, None) DEFAULT_TRANSFORMS) with ("right", 0%Z, @None Transpose).
  change (Dict.get_default "right" ("right", 0%Z, None) DEFAULT_TRANSFORMS) with ("front", 0%Z, @None Transpose).
  change (Dict.get_default "back" ("back", 0%Z, None) DEFAULT_TRANSFORMS) with ("left", 0%Z, @None Transpose).
  change (Dict.get_default "down" ("down", 0%Z, None) DEFAULT_TRANSFORMS) with ("down", 0%Z, @None Transpose).
  cbv iota beta.
  destruct (Dict.get "up" images) as [iu|]; [|discriminate].
  change (Dict.get "up" (COORDS n)) with (Some (n * 1, n * 0)). cbv iota beta.
  destruct (Dict.get "back" images) as [ib|]; [|discriminate].
  change (Dict.get "left" (COORDS n)) with (Some (n * 0, n * 1)). cbv iota beta.
  destruct (Dict.get "right" images) as [ir|]; [|discriminate].
  change (Dict.get "front" (COORDS n)) with (Some (n * 1, n * 1)). cbv iota beta.
  destruct (Dict.get "front" images) as [ifr|]; [|discriminate].
  change (Dict.get "right" (COORDS n)) with (Some (n * 2, n * 1)). cbv iota beta.
  destruct (Dict.get "left" images) as [il|]; [|discriminate].
  change (Dict.get "back" (COORDS n)) with (Some (n * 3, n * 1)). cbv iota beta.
  destruct (Dict.get "down" images) as [id|]; [|discriminate].
  change (Dict.get "down" (COORDS n)) with (Some (n * 1, n * 2)). cbv iota beta.
  intros [= <-]. exists iu, il, ifr, ir, ib, id. repeat split.
Qed.

(** Every image loaded is the decoding of a listed file. *)
Lemma load_images_values items : forall images b imgs bs,
  load_images world items images b = inr (imgs, bs) ->
  forall k img, Dict.get k imgs = Some img ->
    Dict.get k images = Some img \/
    exists f p, In (f, p) items /\ load_face world p = inr img.
Proof.
  induction items as [|[f p] rest IH]; intros images b imgs bs H k img G.
  - simpl in H. injection H as <- _. now left.
  - simpl in H. destruct (load_face world p) as [e|i] eqn:L; [discriminate|].
    destruct (IH _ _ _ _ H k img G) as [G'|(f' & p' & I & L')].
    + rewrite get_set in G'. destruct (String.eqb k f).
      * injection G' as <-. right. exists f, p. split; [now left | exact L].
      * now left.
    + right. exists f', p'. split; [now right | exact L'].
Qed.

(** The resize guard, read from the side of the result. *)
Lemma fit_to_base_spec n img :
  fit_to_base n img = if (width img =? n)%nat then img else resize img (n, n).
Proof. unfold fit_to_base. now destruct (width img =? n)%nat. Qed.

Lemma fit_to_base_square n img :
  width img = height img -> size (fit_to_base n img) = (n, n).
Proof.
  intros Sq. destruct (Nat.eq_dec (width img) n) as [E|N].
  - rewrite fit_to_base_kept by exact E. unfold size. now rewrite <- Sq, E.
  - now apply fit_to_base_resized.
Qed.

(** What a successful run has done. *)
Lemma stitch_success transforms files output_path msg saved_files :
  stitch_with world transforms files output_path = Stitched true msg saved_files ->
  exists final n images,
    load_images world (Dict.items files) [] None = inr (images, Some n) /\
    paste_slots transforms TARGET_SLOTS images n
      (Image_new (n * 4) (n * 3) transparent) = inr final /\
    write_error world output_path = None /\
    saved_files = [SavedImage output_path final].
Proof.
  unfold stitch_with, compose_with.
  destruct (load_images world (Dict.items files) [] None) as [e|[images [n|]]].
  - destruct e; discriminate.
  - destruct (paste_slots transforms TARGET_SLOTS images n _) as [e|final] eqn:P.
    + destruct e; discriminate.
    + destruct (write_error world output_path) eqn:W; [discriminate|].
      intros [= <- <-]. exists final, n, images. auto.
  - discriminate.
Qed.
End StitchFacts.

(* ================================================================== *)
(** ** Composition: the claims *)

Section ComposeClaims.
Context {casing : PyStr.Casing} {ospath : OsPath} {pil : Pillow}.

(** A successful run with the default table, spelled out. *)
Lemma default_run world files output_path msg saved_files :
  stitch_skybox world files output_path = Stitched true msg saved_files ->
  exists n images iu il ifr ir ib id,
    load_images world (Dict.items files) [] None = inr (images, Some n) /\
    write_error world output_path = None /\
    Dict.get "up" images = Some iu /\ Dict.get "left" images = Some il /\
    Dict.get "front" images = Some ifr /\ Dict.get "right" images = Some ir /\
    Dict.get "back" images = Some ib /\ Dict.get "down" images = Some id /\
    saved_files =
      [SavedImage output_path
         (atlas6 n (fit_to_base n iu) (fit_to_base n ib) (fit_to_base n ir)
                   (fit_to_base n ifr) (fit_to_base n il) (fit_to_base n id))].
Proof.
  intros H. apply stitch_success in H as (final & n & images & L & P & W & ->).
  apply paste_slots_default in P as (iu & il & ifr & ir & ib & id & P).
  destruct P as (Gu & Gl & Gf & Gr & Gb & Gd & ->).
  exists n, images, iu, il, ifr, ir, ib, id. repeat split; assumption.
Qed.

(** Inside its cell, a slot shows the buffer pasted there. *)
Lemma atlas6_cells n bu bl bf br bb bd :
  width bu = n -> width bl = n -> width bf = n ->
  width br = n -> width bb = n -> width bd = n ->
  forall col row buffer,
    In (col, row, buffer)
       [(1, 0, bu); (0, 1, bl); (1, 1, bf); (2, 1, br); (3, 1, bb); (1, 2, bd)] ->
    forall x y, x < n -> y < n -> y < height buffer ->
      getpixel (atlas6 n bu bl bf br bb bd) (n * col + x) (n * row + y)
      = Some (data buffer x y).
Proof.
  intros Wu Wl Wf Wr Wb Wd col row buffer I x y Hx Hy Hh.
  simpl in I.
  repeat (destruct I as [I | I]; [injection I as <- <- <- | ]); [ .. | destruct I].
  all: rewrite atlas6_in_range by lia; f_equal.
  - rewrite atlas6_up by (unfold in_cell; auto; lia). f_equal; lia.
  - rewrite atlas6_left by (unfold in_cell; auto; lia). f_equal; lia.
  - rewrite atlas6_front by (unfold in_cell; auto; lia). f_equal; lia.
  - rewrite atlas6_right by (unfold in_cell; auto; lia). f_equal; lia.
  - rewrite atlas6_back by (unfold in_cell; auto; lia). f_equal; lia.
  - rewrite atlas6_down by (unfold in_cell; auto; lia). f_equal; lia.
Qed.

Lemma in_cell_range n col row x y :
  col < 4 -> row < 3 -> in_cell n col row x y -> x < n * 4 /\ y < n * 3.
Proof. unfold in_cell. intros. nia. Qed.

(** C1.  In every successful run over square faces, with N the edge of
    the first face loaded, the atlas saved is a canvas of size (4N, 3N).
    The cell of each slot -- up at column 1 row 0, left at (0,1), front
    at (1,1), right at (2,1), back at (3,1), down at (1,2), in units of
    N -- shows over its whole N by N extent, pixel for pixel and alpha
    included, the face pasted there: the image loaded for the slot's
    source face, resampled to N by N when its edge is not N.  Every
    pixel of the six other cells (0,0), (2,0), (3,0), (0,2), (2,2),
    (3,2) is the transparent (0, 0, 0, 0). *)
Theorem atlas_layout :
  forall world files output_path msg saved_files,
    stitch_skybox world files output_path = Stitched true msg saved_files ->
    (forall face path img,
        In (face, path) files -> load_face world path = inr img ->
        width img = height img) ->
    exists atlas n images,
      saved_files = [SavedImage output_path atlas] /\
      load_images world (Dict.items files) [] None = inr (images, Some n) /\
      first_face_width world files = Some n /\
      size atlas = (4 * n, 3 * n) /\
      (forall target source col row,
          In (target, source, (col, row))
             [("up", "up", (1, 0)); ("left", "back", (0, 1));
              ("front", "right", (1, 1)); ("right", "front", (2, 1));
              ("back", "left", (3, 1)); ("down", "down", (1, 2))] ->
          exists img,
            Dict.get source images = Some img /\
            (dict_wf files ->
             exists path, Dict.get source files = Some path /\
                          load_face world path = inr img) /\
            forall x y, x < n -> y < n ->
              getpixel atlas (n * col + x) (n * row + y)
              = Some (data (if (width img =? n)%nat then img
                            else resize img (n, n)) x y)) /\
      (forall col row x y,
          In (col, row) [(0, 0); (2, 0); (3, 0); (0, 2); (2, 2); (3, 2)] ->
          in_cell n col row x y ->
          getpixel atlas x y = Some (RGBA 0 0 0 0)).
Proof.
  intros world files output_path msg saved_files H Square.
  apply default_run in H
    as (n & images & iu & il & ifr & ir & ib & id & L & W & Gu & Gl & Gf & Gr & Gb & Gd & ->).
  eexists. exists n, images. split; [reflexivity|]. split; [exact L|].
  split; [now apply load_images_base with (images := images)|].
  pose proof (fit_to_base_width n iu) as Wu. pose proof (fit_to_base_width n il) as Wl.
  pose proof (fit_to_base_width n ifr) as Wf. pose proof (fit_to_base_width n ir) as Wr.
  pose proof (fit_to_base_width n ib) as Wb. pose proof (fit_to_base_width n id) as Wd.
  assert (Sq : forall k img, Dict.get k images = Some img ->
                             height (fit_to_base n img) = n).
  { intros k img G.
    destruct (load_images_values world _ _ _ _ _ L k img G) as [G'|(f & p & I & Lp)];
      [discriminate G'|].
    pose proof (fit_to_base_square n img (Square f p img I Lp)) as S.
    unfold size in S. now injection S. }
  assert (Src : forall source img, Dict.get source images = Some img -> dict_wf files ->
            exists path, Dict.get source files = Some path /\ load_face world path = inr img).
  { intros source img G ND.
    rewrite (load_images_get world _ _ _ _ _ L ND source) in G.
    fold (@Dict.items string files) in G. unfold Dict.items in G.
    destruct (Dict.get source files) as [path|]; [|discriminate G].
    exists path. split; [reflexivity|].
    destruct (load_face world path); [discriminate G | now injection G as ->]. }
  split; [unfold size; cbn; f_equal; lia|]. split.
  - intros target source col row I. simpl in I.
    repeat (destruct I as [I | I]; [injection I as <- <- <- <- | ]); [ .. | destruct I].
    all: eexists; split; [eassumption|]; split; [now apply Src|];
      intros x y Hx Hy; rewrite <- fit_to_base_spec;
      apply (atlas6_cells n _ _ _ _ _ _ Wu Wb Wr Wf Wl Wd);
      [simpl; auto 10 | exact Hx | exact Hy | erewrite Sq by eassumption; exact Hy].
  - intros col row x y I C. change (RGBA 0 0 0 0) with transparent.
    simpl in I.
    repeat (destruct I as [I | I]; [injection I as <- <- | ]); [ .. | destruct I].
    1-3: match type of C with
         | in_cell _ ?c _ _ _ =>
             destruct (in_cell_range n c 0 x y) as [Rx Ry]; [lia | lia | exact C |];
             rewrite atlas6_in_range by assumption; f_equal;
             apply (atlas6_top_empty n _ _ _ _ _ _ Wu Wb Wr Wf Wl Wd c x y);
             [lia | exact C]
         end.
    all: match type of C with
         | in_cell _ ?c _ _ _ =>
             destruct (in_cell_range n c 2 x y) as [Rx Ry]; [lia | lia | exact C |];
             rewrite atlas6_in_range by assumption; f_equal
         end.
    + apply (atlas6_bottom_empty n _ _ _ _ _ _ Wu Wb Wr Wf Wl Wd 0 (fit_to_base n ib));
        [auto | erewrite Sq by eassumption; lia | exact C].
    + apply (atlas6_bottom_empty n _ _ _ _ _ _ Wu Wb Wr Wf Wl Wd 2 (fit_to_base n ifr));
        [auto | erewrite Sq by eassumption; lia | exact C].
    + apply (atlas6_bottom_empty n _ _ _ _ _ _ Wu Wb Wr Wf Wl Wd 3 (fit_to_base n il));
        [auto | erewrite Sq by eassumption; lia | exact C].
Qed.
End ComposeClaims.

Section RemapClaims.
Context {casing : PyStr.Casing} {ospath : OsPath} {pil : Pillow}.

(** C2.  The default table reads: left from back, front from right,
    right from front, back from left, up from up, down from down, each
    with rotation 0 and no flip.  In every successful run the run
    follows it as written: the cell of each target slot shows, pixel
    for pixel at the same offsets, the image loaded for the configured
    source face (after the resize to the base size when its width
    differs), which in a dictionary is the image of the file listed
    under that source face. *)
Theorem default_remap_applied :
  forall world files output_path msg saved_files,
    stitch_skybox world files output_path = Stitched true msg saved_files ->
    exists atlas n images,
      saved_files = [SavedImage output_path atlas] /\
      load_images world (Dict.items files) [] None = inr (images, Some n) /\
      forall target source col row,
        In (target, source, (col, row))
           [("left", "back", (0, 1)); ("front", "right", (1, 1));
            ("right", "front", (2, 1)); ("back", "left", (3, 1));
            ("up", "up", (1, 0)); ("down", "down", (1, 2))] ->
        Dict.get target DEFAULT_TRANSFORMS = Some (source, 0%Z, None) /\
        exists img,
          Dict.get source images = Some img /\
          (dict_wf files ->
           exists path, Dict.get source files = Some path /\
                        load_face world path = inr img) /\
          pasted_buffer DEFAULT_TRANSFORMS images n target
            = Some (fit_to_base n img) /\
          (width img = n -> fit_to_base n img = img) /\
          forall x y, x < n -> y < n -> y < height (fit_to_base n img) ->
            getpixel atlas (n * col + x) (n * row + y)
            = Some (data (fit_to_base n img) x y).
Proof.
  intros world files output_path msg saved_files H.
  apply default_run in H
    as (n & images & iu & il & ifr & ir & ib & id & L & W & Gu & Gl & Gf & Gr & Gb & Gd & ->).
  eexists. exists n, images. split; [reflexivity|]. split; [exact L|].
  pose proof (fit_to_base_width n iu) as Wu. pose proof (fit_to_base_width n il) as Wl.
  pose proof (fit_to_base_width n ifr) as Wf. pose proof (fit_to_base_width n ir) as Wr.
  pose proof (fit_to_base_width n ib) as Wb. pose proof (fit_to_base_width n id) as Wd.
  assert (Src : forall source img, Dict.get source images = Some img -> dict_wf files ->
            exists path, Dict.get source files = Some path /\ load_face world path = inr img).
  { intros source img G ND.
    rewrite (load_images_get world _ _ _ _ _ L ND source) in G.
    fold (@Dict.items string files) in G. unfold Dict.items in G.
    destruct (Dict.get source files) as [path|]; [|discriminate G].
    exists path. split; [reflexivity|].
    destruct (load_face world path); [discriminate G | now injection G as ->]. }
  intros target source col row I. simpl in I.
  repeat (destruct I as [I | I]; [injection I as <- <- <- <- | ]); [ .. | destruct I].
  all: split; [reflexivity|]; eexists; split; [eassumption|];
    split; [now apply Src|]; split;
    [unfold pasted_buffer;
     cbn [Dict.get_default Dict.get DEFAULT_TRANSFORMS String.eqb Ascii.eqb Bool.eqb];
     rewrite ?Gu, ?Gl, ?Gf, ?Gr, ?Gb, ?Gd; reflexivity|];
    split; [apply fit_to_base_kept|];
    intros x y Hx Hy Hn;
    apply (atlas6_cells n _ _ _ _ _ _ Wu Wb Wr Wf Wl Wd); simpl; auto 10.
Qed.

(** C3 (amended).  A successful run saves a canvas of exactly (4N, 3N),
    N being the width of the first face loaded.  What the canvas shows
    in the cell of each slot is the image loaded for the slot's source
    face as it is when its width is N, and that image resized to N by N
    when its width differs from N: no buffer whose width differs from N
    reaches the canvas.  (The height is not compared.) *)
Theorem atlas_size_invariant :
  forall world files output_path msg saved_files,
    stitch_skybox world files output_path = Stitched true msg saved_files ->
    exists atlas n images,
      saved_files = [SavedImage output_path atlas] /\
      load_images world (Dict.items files) [] None = inr (images, Some n) /\
      first_face_width world files = Some n /\
      size atlas = (4 * n, 3 * n) /\
      forall target source col row,
        In (target, source, (col, row))
           [("up", "up", (1, 0)); ("left", "back", (0, 1));
            ("front", "right", (1, 1)); ("right", "front", (2, 1));
            ("back", "left", (3, 1)); ("down", "down", (1, 2))] ->
        exists img buffer,
          Dict.get source images = Some img /\
          (width img <> n -> buffer = resize img (n, n)) /\
          (width img = n -> buffer = img) /\
          width buffer = n /\
          (width img <> n -> size buffer = (n, n)) /\
          forall x y, x < n -> y < n -> y < height buffer ->
            getpixel atlas (n * col + x) (n * row + y) = Some (data buffer x y).
Proof.
  intros world files output_path msg saved_files H.
  apply default_run in H
    as (n & images & iu & il & ifr & ir & ib & id & L & W & Gu & Gl & Gf & Gr & Gb & Gd & ->).
  eexists. exists n, images. split; [reflexivity|]. split; [exact L|].
  split; [now apply load_images_base with (images := images)|].
  split; [unfold size; cbn; f_equal; lia|].
  pose proof (fit_to_base_width n iu) as Wu. pose proof (fit_to_base_width n il) as Wl.
  pose proof (fit_to_base_width n ifr) as Wf. pose proof (fit_to_base_width n ir) as Wr.
  pose proof (fit_to_base_width n ib) as Wb. pose proof (fit_to_base_width n id) as Wd.
  assert (Differs : forall img, width img <> n -> fit_to_base n img = resize img (n, n)).
  { intros img N. rewrite fit_to_base_spec.
    destruct (Nat.eqb_spec (width img) n); [contradiction | reflexivity]. }
  intros target source col row I. simpl in I.
  repeat (destruct I as [I | I]; [injection I as <- <- <- <- | ]); [ .. | destruct I].
  all: eexists; eexists (fit_to_base n _); split; [eassumption|];
    split; [apply Differs|]; split; [apply fit_to_base_kept|];
    split; [apply fit_to_base_width|]; split; [apply fit_to_base_resized|];
    intros x y Hx Hy Hh;
    apply (atlas6_cells n _ _ _ _ _ _ Wu Wb Wr Wf Wl Wd); simpl; auto 10.
Qed.

(** C6 (amended).  For two dictionaries that give every face the same
    buffer (the files listed under a face decode alike), and whose
    first-listed faces have the same width, a successful run on one is a
    successful run on the other with the same message and the same
    canvas: beyond fixing the base size, the order of the faces has no
    effect. *)
Theorem atlas_independent_of_order :
  forall world files1 files2 output_path,
    dict_wf files1 -> dict_wf files2 ->
    (forall face,
        option_map (load_face world) (Dict.get face files1)
        = option_map (load_face world) (Dict.get face files2)) ->
    first_face_width world files1 = first_face_width world files2 ->
    success (stitch_skybox world files1 output_path) = true ->
    stitch_skybox world files2 output_path = stitch_skybox world files1 output_path.
Proof.
  intros world files1 files2 output_path ND1 ND2 Same Base Ok.
  destruct (stitch_skybox world files1 output_path) as [ok msg sv] eqn:R.
  simpl in Ok. subst ok.
  pose proof R as R'. apply stitch_success in R' as (final & n & images1 & L1 & P & W & ->).
  assert (All2 : forall f p, In (f, p) (Dict.items files2) ->
                             exists img, load_face world p = inr img).
  { intros f p I. unfold Dict.items in *.
    pose proof (Same f) as Sf. rewrite (in_get _ _ _ ND2 I) in Sf.
    destruct (Dict.get f files1) as [p1|] eqn:G1; [|discriminate Sf].
    injection Sf as Sf. rewrite <- Sf.
    apply (load_images_all world _ _ _ _ _ L1 f p1). now apply get_in. }
  destruct (load_images_succeeds world _ [] None All2) as (images2 & bs2 & L2).
  assert (B2 : bs2 = Some n).
  { pose proof (load_images_base world _ _ _ L1) as B1. rewrite Base in B1.
    unfold first_face_width in B1. destruct (Dict.items files2) as [|[f p] rest] eqn:E.
    - discriminate.
    - destruct (load_images_first world _ _ _ _ _ _ L2) as (img & Lp & ->).
      rewrite Lp in B1. exact B1. }
  subst bs2.
  assert (Get : forall k, Dict.get k images2 = Dict.get k images1).
  { intros k.
    rewrite (load_images_get world _ _ _ _ _ L1 ND1 k).
    rewrite (load_images_get world _ _ _ _ _ L2 ND2 k).
    unfold Dict.items. pose proof (Same k) as Sk.
    destruct (Dict.get k files1), (Dict.get k files2); cbn in Sk;
      try discriminate Sk; [|reflexivity].
    injection Sk as ->. reflexivity. }
  rewrite <- R. unfold stitch_skybox, stitch_with, compose_with.
  rewrite L1, L2. rewrite (paste_slots_ext _ _ images2 images1 n Get). reflexivity.
Qed.
End RemapClaims.

(* ================================================================== *)
(** ** The per-face transform: the claim *)

Section TransformClaims.
Context {pil : Pillow}.



End TransformClaims.


(* ================================================================== *)
(** ** Material descriptors and the driver: the claims *)

Section EmitClaims.
Context {casing : PyStr.Casing} {ospath : OsPath}.

Lemma join_cons sep x l :
  l <> [] -> PyStr.join sep (x :: l) = x ++ sep ++ PyStr.join sep l.
Proof. destruct l; [congruence | reflexivity]. Qed.

Lemma join_middle sep pre x post :
  pre <> [] -> post <> [] ->
  PyStr.join sep (pre ++ x :: post)
  = (PyStr.join sep pre ++ sep) ++ x ++ (sep ++ PyStr.join sep post).
Proof.
  intros Hpre Hpost. induction pre as [|a pre IH]; [congruence|].
  destruct pre as [|b pre].
  - cbn [app]. rewrite !join_cons by congruence. cbn [PyStr.join].
    now rewrite !append_assoc.
  - change ((a :: b :: pre) ++ x :: post)%list with (a :: ((b :: pre) ++ x :: post))%list.
    rewrite join_cons by discriminate. rewrite IH by discriminate.
    rewrite (join_cons sep a (b :: pre)) by discriminate.
    now rewrite !append_assoc.
Qed.

Lemma WroteText_content a b c d : WroteText a b = WroteText c d -> b = d.
Proof. intros H. now injection H. Qed.

Lemma vmat_contents_differ p q :
  get_ldr_vmat_content p <> get_moondome_vmat_content q.
Proof.
  intros H. apply (f_equal (String.get 32)) in H. vm_compute in H. discriminate H.
Qed.


(** C9 (amended).  Each material text is a fixed template around one
    substitution point, the quoted reference path
    materials/skybox/<atlas file name>.  When the descriptor files can
    be written, the sky block is written exactly when the sky flag is
    set and the moondome block exactly when the moondome flag is set,
    sky first.  For an atlas whose file name is skybox_cross.png the
    sky block contains skybox_cross.png. *)
Theorem material_blocks_follow_flags :
  (exists head tail,
      forall p, get_ldr_vmat_content p
                = (head ++ "    SkyTexture " ++ PyStr.dq) ++ p ++ (PyStr.dq ++ tail)) /\
  (exists head tail,
      forall p, get_moondome_vmat_content p
                = (head ++ "    TextureCubeMap " ++ PyStr.dq) ++ p ++ (PyStr.dq ++ tail)) /\
  (forall output_path,
      sky_texture_path_of output_path = "materials/skybox/" ++ basename output_path) /\
  (forall world output_path create_skybox create_moondome,
      write_error world (skybox_vmat_path_of output_path) = None ->
      write_error world (moondome_vmat_path_of output_path) = None ->
      let sky := WroteText (skybox_vmat_path_of output_path)
                   (get_ldr_vmat_content (sky_texture_path_of output_path)) in
      let moondome := WroteText (moondome_vmat_path_of output_path)
                        (get_moondome_vmat_content (sky_texture_path_of output_path)) in
      let out := create_vmat_files world output_path create_skybox create_moondome in
      snd out = ((if create_skybox then [sky] else [])
                   ++ (if create_moondome then [moondome] else []))%list /\
      fst out = ((if create_skybox then [skybox_vmat_path_of output_path] else [])
                   ++ (if create_moondome then [moondome_vmat_path_of output_path] else []))%list /\
      (In sky (snd out) <-> create_skybox = true) /\
      (In moondome (snd out) <-> create_moondome = true)) /\
  (forall output_path,
      basename output_path = "skybox_cross.png" ->
      sky_texture_path_of output_path = "materials/skybox/skybox_cross.png" /\
      PyStr.Substring (PyStr.dq ++ "materials/skybox/skybox_cross.png" ++ PyStr.dq)
        (get_ldr_vmat_content (sky_texture_path_of output_path)) /\
      PyStr.Substring "skybox_cross.png"
        (get_ldr_vmat_content (sky_texture_path_of output_path)) /\
      PyStr.contains "skybox_cross.png"
        (get_ldr_vmat_content (sky_texture_path_of output_path)) = true).
Proof.
  assert (T1 : exists head tail,
      forall p, get_ldr_vmat_content p
                = (head ++ "    SkyTexture " ++ PyStr.dq) ++ p ++ (PyStr.dq ++ tail)).
  { exists (PyStr.join PyStr.nl (firstn 12 (ldr_vmat_lines EmptyString)) ++ PyStr.nl),
           (PyStr.nl ++ PyStr.join PyStr.nl (skipn 13 (ldr_vmat_lines EmptyString))).
    intros p. unfold get_ldr_vmat_content.
    change (ldr_vmat_lines p)
      with (firstn 12 (ldr_vmat_lines EmptyString)
              ++ ("    SkyTexture " ++ PyStr.dq ++ p ++ PyStr.dq)%string
              :: skipn 13 (ldr_vmat_lines EmptyString))%list.
    rewrite join_middle by discriminate. now rewrite !append_assoc. }
  split; [exact T1|]. split; [|split; [reflexivity|split]].
  - exists (PyStr.join PyStr.nl (firstn 24 (moondome_vmat_lines EmptyString)) ++ PyStr.nl),
           (PyStr.nl ++ PyStr.join PyStr.nl (skipn 25 (moondome_vmat_lines EmptyString))).
    intros p. unfold get_moondome_vmat_content.
    change (moondome_vmat_lines p)
      with (firstn 24 (moondome_vmat_lines EmptyString)
              ++ ("    TextureCubeMap " ++ PyStr.dq ++ p ++ PyStr.dq)%string
              :: skipn 25 (moondome_vmat_lines EmptyString))%list.
    rewrite join_middle by discriminate. now rewrite !append_assoc.
  - intros world output_path create_skybox create_moondome W1 W2 sky moondome out.
    assert (E : out = ((if create_skybox then [skybox_vmat_path_of output_path] else [])
                         ++ (if create_moondome then [moondome_vmat_path_of output_path] else []),
                       (if create_skybox then [sky] else [])
                         ++ (if create_moondome then [moondome] else []))%list).
    { subst out sky moondome. unfold create_vmat_files, write_text.
      rewrite W1, W2. destruct create_skybox, create_moondome; reflexivity. }
    rewrite E. cbn [fst snd]. split; [reflexivity|]. split; [reflexivity|].
    subst sky moondome. split.
    + destruct create_skybox, create_moondome; cbn [app In]; split; intros H; auto;
        try (discriminate H); try tauto.
      destruct H as [H|[]]. apply WroteText_content in H. symmetry in H.
      destruct (vmat_contents_differ _ _ H).
    + destruct create_skybox, create_moondome; cbn [app In]; split; intros H; auto;
        try (discriminate H); try tauto.
      destruct H as [H|[]]. apply WroteText_content in H.
      destruct (vmat_contents_differ _ _ H).
  - intros output_path B. unfold sky_texture_path_of. rewrite B.
    split; [reflexivity|].
    assert (S : PyStr.Substring "skybox_cross.png"
                  (get_ldr_vmat_content ("materials/skybox/" ++ "skybox_cross.png"))).
    { destruct T1 as (head & tail & T). rewrite T.
      exists ((head ++ "    SkyTexture " ++ PyStr.dq) ++ "materials/skybox/"),
             (PyStr.dq ++ tail).
      now rewrite !append_assoc. }
    split; [|split; [exact S | now apply contains_spec]].
    destruct T1 as (head & tail & T). rewrite T.
    exists (head ++ "    SkyTexture "), tail.
    now rewrite !append_assoc.
Qed.
End EmitClaims.

Section DriverClaims.
Context {casing : PyStr.Casing} {ospath : OsPath} {pil : Pillow}.

Lemma stitch_outcome world files output_path :
  match compose_with world DEFAULT_TRANSFORMS files, write_error world output_path with
  | inr (atlas, _), None =>
      success (stitch_skybox world files output_path) = true /\
      saved (stitch_skybox world files output_path) = [SavedImage output_path atlas]
  | _, _ =>
      success (stitch_skybox world files output_path) = false /\
      saved (stitch_skybox world files output_path) = []
  end.
Proof.
  unfold stitch_skybox, stitch_with.
  destruct (compose_with world DEFAULT_TRANSFORMS files) as [[m|m|m]|[atlas n]];
    destruct (write_error world output_path); cbn; auto.
Qed.

End DriverClaims.

(* ================================================================== *)
(** ** The claims on concrete runs *)

Lemma sky_files_wf : dict_wf Examples.sky_files.
Proof. no_dup. Qed.

Lemma sky_files_down_first_wf : dict_wf Examples.sky_files_down_first.
Proof. no_dup. Qed.

Lemma sky_files_same_assignment face :
  Dict.get face Examples.sky_files = Dict.get face Examples.sky_files_down_first.
Proof.
  unfold Examples.sky_files, Examples.sky_files_down_first. cbn [Dict.get].
  destruct (String.eqb_spec face "up") as [->|]; [reflexivity|].
  destruct (String.eqb_spec face "down"); reflexivity.
Qed.

(** The faces of [Examples.mixed_disk] are square. *)
Lemma mixed_disk_square face path img :
  In (face, path) Examples.sky_files ->
  load_face (Examples.world_of Examples.mixed_disk) path = inr img ->
  width img = height img.
Proof.
  intros I L. each_entry I; vm_compute in L; injection L as <-; reflexivity.
Qed.

Lemma mixed_disk_run :
  exists msg saved_files,
    stitch_skybox (Examples.world_of Examples.mixed_disk) Examples.sky_files
      "/out/skybox_cross.png" = Stitched true msg saved_files.
Proof. eexists. eexists. vm_compute. reflexivity. Qed.

Lemma square_disk_run :
  exists msg saved_files,
    stitch_skybox (Examples.world_of Examples.square_disk) Examples.sky_files
      "/out/skybox_cross.png" = Stitched true msg saved_files.
Proof. eexists. eexists. vm_compute. reflexivity. Qed.

Lemma atlas_layout_witness :
  exists msg saved_files,
    stitch_skybox (Examples.world_of Examples.mixed_disk) Examples.sky_files
      "/out/skybox_cross.png" = Stitched true msg saved_files /\
    (forall face path img,
        In (face, path) Examples.sky_files ->
        load_face (Examples.world_of Examples.mixed_disk) path = inr img ->
        width img = height img) /\
    exists atlas,
      saved_files = [SavedImage "/out/skybox_cross.png" atlas] /\
      size atlas = (4, 3) /\
      getpixel atlas 0 1 = Some (RGBA 6 6 6 255) /\
      getpixel atlas 0 2 = Some (RGBA 0 0 0 0).
Proof.
  destruct mixed_disk_run as (msg & saved_files & Run).
  exists msg, saved_files. split; [exact Run|]. split; [exact mixed_disk_square|].
  destruct (atlas_layout (Examples.world_of Examples.mixed_disk) Examples.sky_files
              "/out/skybox_cross.png" msg saved_files Run mixed_disk_square)
    as (atlas & n & images & E & L & _ & S & Cells & Empty).
  exists atlas. split; [exact E|].
  vm_compute in L. injection L as <- <-.
  split; [exact S|]. split.
  - destruct (Cells "left" "back" 0 1) as (img & G & _ & Px); [simpl; tauto|].
    vm_compute in G. injection G as <-.
    apply (Px 0 0); lia.
  - apply (Empty 0 2); [simpl; tauto | unfold in_cell; lia].
Defined.

Lemma default_remap_applied_witness :
  exists msg saved_files,
    stitch_skybox (Examples.world_of Examples.square_disk) Examples.sky_files
      "/out/skybox_cross.png" = Stitched true msg saved_files /\
    exists atlas,
      saved_files = [SavedImage "/out/skybox_cross.png" atlas] /\
      getpixel atlas 0 2 = Some (RGBA 6 6 6 255).
Proof.
  destruct square_disk_run as (msg & saved_files & Run).
  exists msg, saved_files. split; [exact Run|].
  destruct (default_remap_applied (Examples.world_of Examples.square_disk)
              Examples.sky_files "/out/skybox_cross.png" msg saved_files Run)
    as (atlas & n & images & E & L & P).
  exists atlas. split; [exact E|].
  destruct (P "left" "back" 0 1 (or_introl eq_refl)) as (_ & img & G & _ & _ & _ & Px).
  vm_compute in L. injection L as <- <-.
  vm_compute in G. injection G as <-.
  apply (Px 0 0); cbn; lia.
Defined.

Lemma atlas_size_invariant_witness :
  exists msg saved_files,
    stitch_skybox (Examples.world_of Examples.mixed_disk) Examples.sky_files
      "/out/skybox_cross.png" = Stitched true msg saved_files /\
    exists atlas,
      saved_files = [SavedImage "/out/skybox_cross.png" atlas] /\
      size atlas = (4, 3) /\
      exists img buffer,
        size img = (2, 2) /\ buffer = resize img (1, 1) /\ size buffer = (1, 1) /\
        getpixel atlas 3 1 = Some (data buffer 0 0).
Proof.
  destruct mixed_disk_run as (msg & saved_files & Run).
  exists msg, saved_files. split; [exact Run|].
  destruct (atlas_size_invariant (Examples.world_of Examples.mixed_disk)
              Examples.sky_files "/out/skybox_cross.png" msg saved_files Run)
    as (atlas & n & images & E & L & _ & S & Cells).
  exists atlas. split; [exact E|].
  vm_compute in L. injection L as <- <-.
  split; [exact S|].
  destruct (Cells "back" "left" 3 1) as (img & buffer & G & Resized & _ & _ & Sz & Px);
    [simpl; tauto|].
  vm_compute in G. injection G as <-.
  exists (Examples.solid 2 2 3), buffer.
  split; [reflexivity|]. split; [apply Resized; discriminate|].
  split; [apply Sz; discriminate|].
  apply (Px 0 0); [lia | lia |].
  pose proof (Sz ltac:(discriminate)) as Hs. unfold size in Hs.
  injection Hs as _ ->. lia.
Defined.

(** C3, as stated, fails on the height: with base size 1, the [back]
    file (one pixel wide, two tall) reaches the canvas at the [left]
    slot as a 1-by-2 buffer, and the canvas shows it in the cell (0,1)
    and in the cell below. *)
Lemma tall_buffer_reaches_canvas :
  success (stitch_skybox (Examples.world_of Examples.tall_back_disk) Examples.sky_files
             "/out/skybox_cross.png") = true /\
  (exists images,
    load_images (Examples.world_of Examples.tall_back_disk)
      (Dict.items Examples.sky_files) [] None = inr (images, Some 1) /\
    option_map size (pasted_buffer DEFAULT_TRANSFORMS images 1 "left") = Some (1, 2)) /\
  exists msg atlas,
    stitch_skybox (Examples.world_of Examples.tall_back_disk) Examples.sky_files
      "/out/skybox_cross.png"
    = Stitched true msg [SavedImage "/out/skybox_cross.png" atlas] /\
    size atlas = (4, 3) /\
    getpixel atlas 0 1 = Some (RGBA 6 6 6 255) /\
    getpixel atlas 0 2 = Some (RGBA 6 6 6 255).
Proof.
  split; [vm_compute; reflexivity|]. split.
  - eexists. split; vm_compute; reflexivity.
  - eexists. eexists. split; [vm_compute; reflexivity|].
    repeat split; vm_compute; reflexivity.
Qed.

Lemma atlas_independent_of_order_witness :
  dict_wf Examples.sky_files /\ dict_wf Examples.sky_files_down_first /\
  (forall face,
      option_map (load_face (Examples.world_of Examples.square_disk))
        (Dict.get face Examples.sky_files)
      = option_map (load_face (Examples.world_of Examples.square_disk))
          (Dict.get face Examples.sky_files_down_first)) /\
  first_face_width (Examples.world_of Examples.square_disk) Examples.sky_files
  = first_face_width (Examples.world_of Examples.square_disk) Examples.sky_files_down_first /\
  success (stitch_skybox (Examples.world_of Examples.square_disk) Examples.sky_files
             "/out/skybox_cross.png") = true /\
  stitch_skybox (Examples.world_of Examples.square_disk) Examples.sky_files_down_first
    "/out/skybox_cross.png"
  = stitch_skybox (Examples.world_of Examples.square_disk) Examples.sky_files
      "/out/skybox_cross.png".
Proof.
  assert (Same : forall face,
             option_map (load_face (Examples.world_of Examples.square_disk))
               (Dict.get face Examples.sky_files)
             = option_map (load_face (Examples.world_of Examples.square_disk))
                 (Dict.get face Examples.sky_files_down_first))
    by (intros face; now rewrite sky_files_same_assignment).
  split; [exact sky_files_wf|]. split; [exact sky_files_down_first_wf|].
  split; [exact Same|]. split; [reflexivity|]. split; [reflexivity|].
  exact (atlas_independent_of_order (Examples.world_of Examples.square_disk)
           Examples.sky_files Examples.sky_files_down_first "/out/skybox_cross.png"
           sky_files_wf sky_files_down_first_wf Same eq_refl eq_refl).
Defined.

(** C6, as stated, fails when the faces differ in width: the same six
    files under the same six faces give a 4-by-3 canvas when [up] (edge
    1) is listed first and an 8-by-6 canvas when [down] (edge 2) is. *)
Lemma base_size_follows_first_face :
  (forall face, Dict.get face Examples.sky_files
                = Dict.get face Examples.sky_files_down_first) /\
  exists msg1 atlas1 msg2 atlas2,
    stitch_skybox (Examples.world_of Examples.mixed_disk) Examples.sky_files
      "/out/skybox_cross.png"
    = Stitched true msg1 [SavedImage "/out/skybox_cross.png" atlas1] /\
    stitch_skybox (Examples.world_of Examples.mixed_disk) Examples.sky_files_down_first
      "/out/skybox_cross.png"
    = Stitched true msg2 [SavedImage "/out/skybox_cross.png" atlas2] /\
    size atlas1 = (4, 3) /\ size atlas2 = (8, 6).
Proof.
  split; [exact sky_files_same_assignment|].
  eexists. eexists. eexists. eexists.
  split; [reflexivity|]. split; [reflexivity|]. split; reflexivity.
Qed.


Lemma material_blocks_follow_flags_witness :
  basename "/out/skybox_cross.png" = "skybox_cross.png" /\
  write_error (Examples.world_of Examples.square_disk)
    (skybox_vmat_path_of "/out/skybox_cross.png") = None /\
  write_error (Examples.world_of Examples.square_disk)
    (moondome_vmat_path_of "/out/skybox_cross.png") = None /\
  PyStr.contains "skybox_cross.png"
    (get_ldr_vmat_content (sky_texture_path_of "/out/skybox_cross.png")) = true /\
  fst (create_vmat_files (Examples.world_of Examples.square_disk)
         "/out/skybox_cross.png" true false)
  = ["/out/skybox_skybox_cross.vmat"].
Proof.
  split; [reflexivity|]. split; [reflexivity|]. split; [reflexivity|].
  destruct material_blocks_follow_flags as (_ & _ & _ & Flags & Cross).
  split.
  - exact (proj2 (proj2 (proj2 (Cross "/out/skybox_cross.png" eq_refl)))).
  - destruct (Flags (Examples.world_of Examples.square_disk) "/out/skybox_cross.png"
                true false eq_refl eq_refl) as (_ & F & _).
    exact F.
Defined.

(** C9, as stated, fails when a descriptor cannot be written: with both
    flags set and a read-only destination, no block is produced. *)
Lemma unwritable_descriptor_is_dropped :
  create_vmat_files (Examples.read_only (Examples.world_of Examples.square_disk))
    "/out/skybox_cross.png" true true = ([], []).
Proof. reflexivity. Qed.

(* ================================================================== *)
(** ** Loading and composing as a whole *)

Section StitchWhole.
Context {casing : PyStr.Casing} {ospath : OsPath} {pil : Pillow}.

(** The faces loaded are the faces listed. *)
Lemma load_images_mem world items : forall images b imgs bs,
  load_images world items images b = inr (imgs, bs) ->
  forall k, Dict.mem k imgs = Dict.mem k items || Dict.mem k images.
Proof.
  induction items as [|[f p] rest IH]; intros images b imgs bs H k.
  - simpl in H. injection H as <- _. reflexivity.
  - simpl in H. destruct (load_face world p) as [e|img]; [discriminate|].
    rewrite (IH _ _ _ _ H k), mem_set. unfold Dict.mem. simpl.
    destruct (String.eqb k f), (Dict.get k rest), (Dict.get k images); reflexivity.
Qed.

(** The loop stops at the first file that does not decode. *)
Lemma load_images_fails world pre : forall f p post images b e,
  (forall f' p', In (f', p') pre -> exists img, load_face world p' = inr img) ->
  load_face world p = inl e ->
  load_images world (pre ++ (f, p) :: post) images b = inl e.
Proof.
  induction pre as [|[f0 p0] pre IH]; intros f p post images b e Ok Bad; simpl.
  - now rewrite Bad.
  - destruct (Ok f0 p0 (or_introl eq_refl)) as [img ->].
    apply IH; [|exact Bad]. intros f' p' I. apply (Ok f' p'). now right.
Qed.

(** Loading reads the world through [load_face] on the listed files. *)
Lemma load_images_ext world1 world2 items : forall images b,
  (forall f p, In (f, p) items -> load_face world1 p = load_face world2 p) ->
  load_images world1 items images b = load_images world2 items images b.
Proof.
  induction items as [|[f p] rest IH]; intros images b E; simpl; [reflexivity|].
  rewrite (E f p (or_introl eq_refl)).
  destruct (load_face world2 p); [reflexivity|].
  apply IH. intros f' p' I. apply (E f' p'). now right.
Qed.

(** The six lookups of the default table, in the order they are made. *)
Lemma paste_slots_default_eq images n :
  paste_slots DEFAULT_TRANSFORMS TARGET_SLOTS images n
    (Image_new (n * 4) (n * 3) transparent)
  = match Dict.get "up" images with
    | None => inl (key_error "up")
    | Some iu =>
    match Dict.get "back" images with
    | None => inl (key_error "back")
    | Some ib =>
    match Dict.get "right" images with
    | None => inl (key_error "right")
    | Some ir =>
    match Dict.get "front" images with
    | None => inl (key_error "front")
    | Some ifr =>
    match Dict.get "left" images with
    | None => inl (key_error "left")
    | Some il =>
    match Dict.get "down" images with
    | None => inl (key_error "down")
    | Some id =>
        inr (atlas6 n (fit_to_base n iu) (fit_to_base n ib) (fit_to_base n ir)
                      (fit_to_base n ifr) (fit_to_base n il) (fit_to_base n id))
    end end end end end end.
Proof.
  cbn [paste_slots TARGET_SLOTS].
  change (Dict.get_default "up" ("up", 0%Z, None) DEFAULT_TRANSFORMS) with ("up", 0%Z, @None Transpose).
  change (Dict.get_default "left" ("left", 0%Z, None) DEFAULT_TRANSFORMS) with ("back", 0%Z, @None Transpose).
  change (Dict.get_default "front" ("front", 0%Z, None) DEFAULT_TRANSFORMS) with ("right", 0%Z, @None Transpose).
  change (Dict.get_default "right" ("right", 0%Z, None) DEFAULT_TRANSFORMS) with ("front", 0%Z, @None Transpose).
  change (Dict.get_default "back" ("back", 0%Z, None) DEFAULT_TRANSFORMS) with ("left", 0%Z, @None Transpose).
  change (Dict.get_default "down" ("down", 0%Z, None) DEFAULT_TRANSFORMS) with ("down", 0%Z, @None Transpose).
  cbv iota beta.
  destruct (Dict.get "up" images) as [iu|]; [|reflexivity].
  change (Dict.get "up" (COORDS n)) with (Some (n * 1, n * 0)). cbv iota beta.
  destruct (Dict.get "back" images) as [ib|]; [|reflexivity].
  change (Dict.get "left" (COORDS n)) with (Some (n * 0, n * 1)). cbv iota beta.
  destruct (Dict.get "right" images) as [ir|]; [|reflexivity].
  change (Dict.get "front" (COORDS n)) with (Some (n * 1, n * 1)). cbv iota beta.
  destruct (Dict.get "front" images) as [ifr|]; [|reflexivity].
  change (Dict.get "right" (COORDS n)) with (Some (n * 2, n * 1)). cbv iota beta.
  destruct (Dict.get "left" images) as [il|]; [|reflexivity].
  change (Dict.get "back" (COORDS n)) with (Some (n * 3, n * 1)). cbv iota beta.
  destruct (Dict.get "down" images) as [id|]; [|reflexivity].
  change (Dict.get "down" (COORDS n)) with (Some (n * 1, n * 2)). cbv iota beta.
  reflexivity.
Qed.

Lemma mem_get_some {V : Type} (d : Dict.t V) k :
  Dict.mem k d = true -> exists v, Dict.get k d = Some v.
Proof. unfold Dict.mem. destruct (Dict.get k d) as [v|]; [eauto | discriminate]. Qed.

Lemma mem_get_none {V : Type} (d : Dict.t V) k :
  Dict.mem k d = false -> Dict.get k d = None.
Proof. unfold Dict.mem. destruct (Dict.get k d) as [v|]; [discriminate | reflexivity]. Qed.

Lemma stitch_load_failure world transforms files output_path e :
  load_images world (Dict.items files) [] None = inl e ->
  stitch_with world transforms files output_path = failed_run e.
Proof.
  intros L. unfold stitch_with, compose_with. rewrite L. destruct e; reflexivity.
Qed.

Lemma stitch_paste_failure world transforms files output_path images n e :
  load_images world (Dict.items files) [] None = inr (images, Some n) ->
  paste_slots transforms TARGET_SLOTS images n
    (Image_new (n * 4) (n * 3) transparent) = inl e ->
  stitch_with world transforms files output_path = failed_run e.
Proof.
  intros L P. unfold stitch_with, compose_with. rewrite L, P. destruct e; reflexivity.
Qed.

(** A non-empty list of files that all decode loads, with the base size
    fixed. *)
Lemma load_images_nonempty world files :
  files <> [] ->
  (forall f p, In (f, p) files -> exists img, load_face world p = inr img) ->
  exists images n,
    load_images world (Dict.items files) [] None = inr (images, Some n).
Proof.
  intros NE Ok. destruct (load_images_succeeds world _ [] None Ok) as (images & bs & L).
  unfold Dict.items in *. destruct files as [|[f p] rest]; [congruence|].
  destruct (load_images_first world _ _ _ _ _ _ L) as (img & _ & ->).
  now exists images, (width img).
Qed.

Lemma stitch_success_needs world files output_path :
  success (stitch_skybox world files output_path) = true ->
  (forall f p, In (f, p) files -> exists img, load_face world p = inr img) /\
  (forall s, In s TARGET_SLOTS -> Dict.mem s files = true) /\
  write_error world output_path = None.
Proof.
  intros Ok. destruct (stitch_skybox world files output_path) as [ok msg sv] eqn:R.
  simpl in Ok. subst ok.
  apply stitch_success in R as (final & n & images & L & P & W & _).
  split; [exact (load_images_all world _ _ _ _ _ L)|]. split; [|exact W].
  apply paste_slots_default in P as (iu & il & ifr & ir & ib & id & P).
  destruct P as (Gu & Gl & Gf & Gr & Gb & Gd & _).
  assert (K : forall k v, Dict.get k images = Some v -> Dict.mem k files = true).
  { intros k v G. pose proof (load_images_mem world _ _ _ _ _ L k) as M.
    unfold Dict.mem at 1 in M. rewrite G in M. unfold Dict.items in M.
    unfold Dict.mem at 2 in M. simpl in M. now rewrite orb_false_r in M. }
  intros s I. simpl in I.
  repeat (destruct I as [<- | I]; [eapply K; eassumption|]). destruct I.
Qed.

Lemma stitch_success_given world files output_path :
  (forall f p, In (f, p) files -> exists img, load_face world p = inr img) ->
  (forall s, In s TARGET_SLOTS -> Dict.mem s files = true) ->
  write_error world output_path = None ->
  success (stitch_skybox world files output_path) = true.
Proof.
  intros Ok Six W.
  assert (NE : files <> []).
  { intros ->. specialize (Six "up" (or_introl eq_refl)). discriminate Six. }
  destruct (load_images_nonempty world files NE Ok) as (images & n & L).
  assert (K : forall s, In s TARGET_SLOTS -> exists v, Dict.get s images = Some v).
  { intros s I. apply mem_get_some.
    rewrite (load_images_mem world _ _ _ _ _ L s). unfold Dict.items.
    now rewrite (Six s I). }
  destruct (K "up") as [iu Gu]; [simpl; tauto|].
  destruct (K "back") as [ib Gb]; [simpl; tauto|].
  destruct (K "right") as [ir Gr]; [simpl; tauto|].
  destruct (K "front") as [ifr Gf]; [simpl; tauto|].
  destruct (K "left") as [il Gl]; [simpl; tauto|].
  destruct (K "down") as [id Gd]; [simpl; tauto|].
  unfold stitch_skybox, stitch_with, compose_with.
  rewrite L, paste_slots_default_eq, Gu, Gb, Gr, Gf, Gl, Gd, W. reflexivity.
Qed.

(** Pasting never changes the size of the canvas. *)
Lemma paste_slots_size transforms slots images n : forall canvas final,
  paste_slots transforms slots images n canvas = inr final ->
  size final = size canvas.
Proof.
  induction slots as [|s slots IH]; intros canvas final H; cbn [paste_slots] in H.
  - now injection H as <-.
  - destruct (Dict.get_default s (s, 0%Z, None) transforms) as [[src deg] flip].
    destruct (Dict.get src images) as [img|]; [|discriminate].
    destruct (Dict.get s (COORDS n)) as [[px py]|]; [|discriminate].
    rewrite (IH _ _ H). reflexivity.
Qed.
End StitchWhole.

Section StitchExtras.
Context {casing : PyStr.Casing} {ospath : OsPath} {pil : Pillow}.

(** X4.  A run of [stitch_skybox] succeeds exactly when every listed
    file decodes, the six faces up, left, front, right, back and down
    are all listed, and the atlas can be written. *)
Theorem stitch_succeeds_exactly_when :
  forall world files output_path,
    success (stitch_skybox world files output_path) = true <->
    (forall f p, In (f, p) files -> exists img, load_face world p = inr img) /\
    (forall s, In s TARGET_SLOTS -> Dict.mem s files = true) /\
    write_error world output_path = None.
Proof.
  intros world files output_path. split.
  - apply stitch_success_needs.
  - intros (Ok & Six & W). now apply stitch_success_given.
Qed.

(** X5.  The first listed file that does not decode decides the
    outcome: the run fails with that file's error (an ImportError as it
    is, any other exception behind "Error creating skybox: ") and writes
    nothing, whatever the later files and the destination are. *)
Theorem first_undecodable_file_decides :
  forall world files output_path pre f p post e,
    files = (pre ++ (f, p) :: post)%list ->
    (forall f' p', In (f', p') pre -> exists img, load_face world p' = inr img) ->
    load_face world p = inl e ->
    stitch_skybox world files output_path = failed_run e /\
    success (failed_run e) = false /\ saved (failed_run e) = [].
Proof.
  intros world files output_path pre f p post e -> Ok Bad.
  split; [|destruct e; split; reflexivity].
  apply stitch_load_failure. unfold Dict.items. now apply load_images_fails.
Qed.

(** X6.  When every listed file decodes but one of the six faces is not
    listed, the run fails with the KeyError of the first face missing in
    the order the sources are read (up, back, right, front, left, down)
    and writes nothing; with no file at all it fails on the unset base
    size. *)
Theorem missing_face_is_a_key_error :
  (forall world output_path,
      stitch_skybox world [] output_path
      = Stitched false
          "Error creating skybox: unsupported operand type(s) for *: 'NoneType' and 'int'"
          []) /\
  forall world files output_path present s later,
    files <> [] ->
    (forall f p, In (f, p) files -> exists img, load_face world p = inr img) ->
    ["up"; "back"; "right"; "front"; "left"; "down"] = (present ++ s :: later)%list ->
    (forall t, In t present -> Dict.mem t files = true) ->
    Dict.mem s files = false ->
    stitch_skybox world files output_path
    = Stitched false ("Error creating skybox: '" ++ s ++ "'") [].
Proof.
  split; [reflexivity|].
  intros world files output_path present s later NE Ok E Pre Miss.
  destruct (load_images_nonempty world files NE Ok) as (images & n & L).
  assert (M : forall k, Dict.mem k images = Dict.mem k files).
  { intros k. rewrite (load_images_mem world _ _ _ _ _ L k). unfold Dict.items.
    unfold Dict.mem at 2. simpl. now rewrite orb_false_r. }
  assert (Hs : Dict.get s images = None) by (apply mem_get_none; now rewrite M).
  assert (Hp : forall t, In t present -> exists v, Dict.get t images = Some v).
  { intros t I. apply mem_get_some. rewrite M. now apply Pre. }
  change (Stitched false ("Error creating skybox: '" ++ s ++ "'") [])
    with (failed_run (key_error s)).
  apply (stitch_paste_failure world _ _ _ images n); [exact L|].
  rewrite paste_slots_default_eq.
  repeat (destruct present as [|t present];
          [ cbn [app] in E; injection E as <- _; rewrite Hs; reflexivity
          | cbn [app] in E; injection E as <- E;
            let v := fresh "v" in let G := fresh "G" in
            destruct (Hp _ (or_introl eq_refl)) as [v G]; rewrite G;
            assert (Hp' : forall t', In t' present -> exists v', Dict.get t' images = Some v')
              by (intros t' I'; apply Hp; now right);
            clear Hp; rename Hp' into Hp ]).
  destruct present; discriminate E.
Qed.

(** X7.  No skybox with a VTF face is stitched.  [VTF_SUPPORT] is read
    for every file whose name ends in [.vtf], in any letter case, and
    nothing binds it: a run that lists such a file fails and writes
    nothing, and when that file is the first that does not decode, the
    message is the NameError behind "Error creating skybox: " -- not the
    hint to install the decoder. *)
Theorem vtf_face_ends_in_name_error :
  forall world files output_path pre f p post,
    files = (pre ++ (f, p) :: post)%list ->
    PyStr.endswith (PyStr.lower p) ".vtf" = true ->
    success (stitch_skybox world files output_path) = false /\
    saved (stitch_skybox world files output_path) = [] /\
    ((forall f' p', In (f', p') pre -> exists img, load_face world p' = inr img) ->
     stitch_skybox world files output_path
     = Stitched false "Error creating skybox: name 'VTF_SUPPORT' is not defined" []).
Proof.
  intros world files output_path pre f p post -> Vtf.
  assert (Bad : load_face world p = inl (NameError "VTF_SUPPORT")).
  { unfold load_face. rewrite Vtf. reflexivity. }
  assert (Fails : success (stitch_skybox world (pre ++ (f, p) :: post)%list output_path) = false).
  { destruct (success (stitch_skybox world (pre ++ (f, p) :: post)%list output_path)) eqn:Ok;
      [exfalso | reflexivity].
    apply stitch_success_needs in Ok as (All & _ & _).
    destruct (All f p) as [img L]; [apply in_or_app; right; now left|].
    rewrite Bad in L. discriminate L. }
  split; [exact Fails|]. split.
  - pose proof (stitch_outcome world (pre ++ (f, p) :: post)%list output_path) as O.
    destruct (compose_with world DEFAULT_TRANSFORMS (pre ++ (f, p) :: post)%list) as [e|[atlas n]];
      [exact (proj2 O)|].
    destruct (write_error world output_path); [exact (proj2 O)|].
    destruct O as [O _]. rewrite Fails in O. discriminate O.
  - intros Ok.
    change (Stitched false "Error creating skybox: name 'VTF_SUPPORT' is not defined" [])
      with (failed_run (NameError "VTF_SUPPORT")).
    apply stitch_load_failure. unfold Dict.items. now apply load_images_fails.
Qed.

(** X8.  A run over files none of which is a [.vtf] does not depend on
    the VTF decoder: two worlds with the same Pillow files and the same
    writable paths give the same result, whether or not the decoder is
    installed and whatever it would return. *)
Theorem vtf_decoder_unused_without_vtf_files :
  forall world1 world2 files output_path,
    (forall p, image_open world1 p = image_open world2 p) ->
    (forall p, write_error world1 p = write_error world2 p) ->
    (forall f p, In (f, p) files -> PyStr.endswith (PyStr.lower p) ".vtf" = false) ->
    stitch_skybox world1 files output_path = stitch_skybox world2 files output_path.
Proof.
  intros world1 world2 files output_path Open Write NoVtf.
  unfold stitch_skybox, stitch_with, compose_with.
  rewrite (load_images_ext world1 world2 (Dict.items files) [] None).
  - now rewrite Write.
  - intros f p I. unfold load_face. rewrite (NoVtf f p I), Open. reflexivity.
Qed.

Lemma stitch_saved_shape :
  forall world transforms files output_path msg saved_files,
    stitch_with world transforms files output_path = Stitched true msg saved_files ->
    exists atlas n,
      saved_files = [SavedImage output_path atlas] /\
      first_face_width world files = Some n /\
      size atlas = (n * 4, n * 3).
Proof.
  intros world transforms files output_path msg saved_files H.
  apply stitch_success in H as (final & n & images & L & P & W & ->).
  exists final, n. split; [reflexivity|].
  split; [exact (load_images_base world _ _ _ L)|].
  exact (paste_slots_size _ _ _ _ _ _ P).
Qed.

(** X10.  For any transform table, a successful run saves exactly one
    file, the atlas at the output path; its size is (4N, 3N) for N the
    width of the first face loaded, whatever the rules rotate or flip;
    and the resolution in the returned message is the size of the saved
    image. *)
Theorem saved_atlas_matches_report :
  forall world transforms files output_path msg saved_files,
    stitch_with world transforms files output_path = Stitched true msg saved_files ->
    exists atlas n,
      saved_files = [SavedImage output_path atlas] /\
      first_face_width world files = Some n /\
      size atlas = (n * 4, n * 3) /\
      msg = "Skybox saved successfully to:" ++ PyStr.nl ++ output_path
              ++ PyStr.nl ++ PyStr.nl ++
            "Resolution: " ++ PyStr.of_nat (width atlas) ++ "x"
              ++ PyStr.of_nat (height atlas).
Proof.
  intros world transforms files output_path msg saved_files H.
  destruct (stitch_saved_shape _ _ _ _ _ _ H) as (atlas & n & -> & B & S).
  exists atlas, n. split; [reflexivity|]. split; [exact B|]. split; [exact S|].
  unfold stitch_with, compose_with in H.
  destruct (load_images world (Dict.items files) [] None) as [e|[images [b|]]] eqn:L;
    [destruct e; discriminate H | | discriminate H].
  pose proof (load_images_base world _ _ _ L) as B'. rewrite B in B'.
  injection B' as <-.
  destruct (paste_slots transforms TARGET_SLOTS images n _) as [e|final];
    [destruct e; discriminate H|].
  destruct (write_error world output_path); [discriminate H|].
  injection H as <- <-. unfold size in S. injection S as -> ->. reflexivity.
Qed.
End StitchExtras.

(* ================================================================== *)
(** ** Descriptors and the driver as a whole *)

Section VmatWhole.
Context {casing : PyStr.Casing} {ospath : OsPath}.

Lemma ldr_reference p :
  PyStr.Substring (PyStr.dq ++ p ++ PyStr.dq) (get_ldr_vmat_content p).
Proof.
  unfold get_ldr_vmat_content.
  change (ldr_vmat_lines p)
    with (firstn 12 (ldr_vmat_lines EmptyString)
            ++ ("    SkyTexture " ++ PyStr.dq ++ p ++ PyStr.dq)%string
            :: skipn 13 (ldr_vmat_lines EmptyString))%list.
  rewrite join_middle by discriminate.
  exists ((PyStr.join PyStr.nl (firstn 12 (ldr_vmat_lines EmptyString)) ++ PyStr.nl)
            ++ "    SkyTexture "),
         (PyStr.nl ++ PyStr.join PyStr.nl (skipn 13 (ldr_vmat_lines EmptyString))).
  rewrite !append_assoc. reflexivity.
Qed.

Lemma moondome_reference p :
  PyStr.Substring (PyStr.dq ++ p ++ PyStr.dq) (get_moondome_vmat_content p).
Proof.
  unfold get_moondome_vmat_content.
  change (moondome_vmat_lines p)
    with (firstn 24 (moondome_vmat_lines EmptyString)
            ++ ("    TextureCubeMap " ++ PyStr.dq ++ p ++ PyStr.dq)%string
            :: skipn 25 (moondome_vmat_lines EmptyString))%list.
  rewrite join_middle by discriminate.
  exists ((PyStr.join PyStr.nl (firstn 24 (moondome_vmat_lines EmptyString)) ++ PyStr.nl)
            ++ "    TextureCubeMap "),
         (PyStr.nl ++ PyStr.join PyStr.nl (skipn 25 (moondome_vmat_lines EmptyString))).
  rewrite !append_assoc. reflexivity.
Qed.

(** X11.  [create_vmat_files] reports a file only once it is written
    whole: every path it returns was written without an error and holds
    a text that quotes the reference path materials/skybox/<atlas file
    name>.  A file on the disk that it does not return is one that a
    failed write left there after [open] had created or truncated it;
    there is at most one.  When the sky block is asked for and its write
    fails, the moondome block is not attempted: nothing is returned, and
    the disk holds what the failed write left, if anything. *)
Theorem descriptors_reported_are_complete :
  forall world output_path create_skybox create_moondome,
    let sky_path := skybox_vmat_path_of output_path in
    let sky_text := get_ldr_vmat_content (sky_texture_path_of output_path) in
    let result := create_vmat_files world output_path create_skybox create_moondome in
    (forall path,
        In path (fst result) ->
        write_error world path = None /\
        exists content,
          In (WroteText path content) (snd result) /\
          PyStr.Substring
            (PyStr.dq ++ ("materials/skybox/" ++ basename output_path) ++ PyStr.dq)
            content) /\
    (forall path content,
        In (WroteText path content) (snd result) -> ~ In path (fst result) ->
        write_error world path <> None /\
        exists text, left_behind world path text = Some content) /\
    List.length (fst result) <= List.length (snd result) <= S (List.length (fst result)) /\
    (create_skybox = true -> write_error world sky_path <> None ->
     fst result = [] /\
     snd result = match left_behind world sky_path sky_text with
                  | Some remains => [WroteText sky_path remains]
                  | None => []
                  end).
Proof.
  intros world output_path create_skybox create_moondome sky_path sky_text result.
  subst result sky_path sky_text.
  unfold create_vmat_files, write_text.
  destruct create_skybox, create_moondome; cbn [negb andb];
    destruct (write_error world (skybox_vmat_path_of output_path)) eqn:W1;
    destruct (write_error world (moondome_vmat_path_of output_path)) eqn:W2;
    try destruct (left_behind world (skybox_vmat_path_of output_path)
                    (get_ldr_vmat_content (sky_texture_path_of output_path))) eqn:B1;
    try destruct (left_behind world (moondome_vmat_path_of output_path)
                    (get_moondome_vmat_content (sky_texture_path_of output_path))) eqn:B2;
    cbn [fst snd app andb List.length].
  all: split; [|split; [|split; [lia|]]].
  all: try (intros path I; cbn [In] in I;
            repeat match type of I with _ \/ _ => destruct I as [<- | I] end;
            [ .. | destruct I];
            (split; [assumption|]);
            first [ exists (get_ldr_vmat_content (sky_texture_path_of output_path));
                    split; [cbn [In]; tauto | apply ldr_reference]
                  | exists (get_moondome_vmat_content (sky_texture_path_of output_path));
                    split; [cbn [In]; tauto | apply moondome_reference] ]).
  all: try (intros path content I NI; cbn [In] in I, NI;
            repeat match type of I with
                   | _ \/ _ =>
                       destruct I as [I | I];
                       [injection I as <- <-;
                        first [ exfalso; tauto
                              | split; [congruence | eexists; eassumption] ] |]
                   end;
            destruct I).
  all: intros Sky Fail; first [discriminate Sky | congruence | split; reflexivity].
Qed.
End VmatWhole.

Section DriverWhole.
Context {casing : PyStr.Casing} {ospath : OsPath} {pil : Pillow}.

(** X13.  As the module stands, every run of [main] ends in the
    NameError of line 56, whatever files are picked, whatever the
    answers to the dialogs and whatever the disk holds: the exception is
    not caught, the exit status is 1, no file is written, no material
    file is reported and nothing is handed to the system. *)
Theorem main_ends_in_name_error :
  forall world file_paths create_skybox create_moondome output_choice,
    let r := main world file_paths create_skybox create_moondome output_choice in
    uncaught r = Some (NameError "messagebox") /\
    exit_code r = 1 /\
    written r = [] /\ vmat_files r = [] /\ launched r = [].
Proof.
  intros world file_paths create_skybox create_moondome output_choice r.
  subst r. unfold main. rewrite select_raises. cbn [raised].
  repeat split.
Qed.
End DriverWhole.

Section Resampling.
Context {casing : PyStr.Casing} {ospath : OsPath}.

(** X17.  Faces that already have the base width are never resampled:
    when all listed files decode to images of one width, the result of
    [stitch_skybox] is the same for every resampling kernel. *)
Theorem equal_width_faces_are_not_resampled :
  forall (pil1 pil2 : Pillow) world files output_path w,
    (forall f p img, In (f, p) files -> load_face world p = inr img -> width img = w) ->
    @stitch_skybox casing ospath pil1 world files output_path
    = @stitch_skybox casing ospath pil2 world files output_path.
Proof.
  intros pil1 pil2 world files output_path w Same.
  unfold stitch_skybox, stitch_with, compose_with.
  destruct (load_images world (Dict.items files) [] None) as [e|[images [n|]]] eqn:L;
    [reflexivity | | reflexivity].
  assert (Wn : n = w).
  { unfold Dict.items in L. destruct files as [|[f p] rest]; [discriminate L|].
    destruct (load_images_first world _ _ _ _ _ _ L) as (img & Lp & [= ->]).
    apply (Same f p img); [now left | exact Lp]. }
  assert (Keep1 : forall k img, Dict.get k images = Some img ->
                                @fit_to_base pil1 n img = img).
  { intros k img G. apply fit_to_base_kept. rewrite Wn.
    destruct (load_images_values world _ _ _ _ _ L k img G) as [G'|(f & p & I & Lp)];
      [discriminate G' | exact (Same f p img I Lp)]. }
  assert (Keep2 : forall k img, Dict.get k images = Some img ->
                                @fit_to_base pil2 n img = img).
  { intros k img G. apply fit_to_base_kept. rewrite Wn.
    destruct (load_images_values world _ _ _ _ _ L k img G) as [G'|(f & p & I & Lp)];
      [discriminate G' | exact (Same f p img I Lp)]. }
  rewrite !paste_slots_default_eq.
  destruct (Dict.get "up" images) as [iu|] eqn:Gu; [|reflexivity].
  destruct (Dict.get "back" images) as [ib|] eqn:Gb; [|reflexivity].
  destruct (Dict.get "right" images) as [ir|] eqn:Gr; [|reflexivity].
  destruct (Dict.get "front" images) as [ifr|] eqn:Gf; [|reflexivity].
  destruct (Dict.get "left" images) as [il|] eqn:Gl; [|reflexivity].
  destruct (Dict.get "down" images) as [id|] eqn:Gd; [|reflexivity].
  rewrite (Keep1 _ _ Gu), (Keep1 _ _ Gb), (Keep1 _ _ Gr), (Keep1 _ _ Gf),
          (Keep1 _ _ Gl), (Keep1 _ _ Gd).
  rewrite (Keep2 _ _ Gu), (Keep2 _ _ Gb), (Keep2 _ _ Gr), (Keep2 _ _ Gf),
          (Keep2 _ _ Gl), (Keep2 _ _ Gd).
  reflexivity.
Qed.
End Resampling.

(* ================================================================== *)
(** ** The further properties on concrete runs *)

Lemma stitch_succeeds_exactly_when_witness :
  success (stitch_skybox (Examples.world_of Examples.square_disk) Examples.sky_files
             "/out/skybox_cross.png") = true /\
  (forall s, In s TARGET_SLOTS -> Dict.mem s Examples.sky_files = true) /\
  write_error (Examples.world_of Examples.square_disk) "/out/skybox_cross.png" = None.
Proof.
  assert (Ok : success (stitch_skybox (Examples.world_of Examples.square_disk)
                          Examples.sky_files "/out/skybox_cross.png") = true)
    by (vm_compute; reflexivity).
  split; [exact Ok|].
  exact (proj2 (proj1 (stitch_succeeds_exactly_when
                         (Examples.world_of Examples.square_disk) Examples.sky_files
                         "/out/skybox_cross.png") Ok)).
Defined.

Lemma first_undecodable_file_decides_witness :
  Cases.up_absent = ([] ++ ("up", "/sky/absent.png") :: tl Cases.up_absent)%list /\
  load_face (Examples.world_of Examples.square_disk) "/sky/absent.png"
  = inl (Exception "cannot identify image file") /\
  stitch_skybox (Examples.world_of Examples.square_disk) Cases.up_absent
    "/out/skybox_cross.png"
  = Stitched false "Error creating skybox: cannot identify image file" [].
Proof.
  assert (Bad : load_face (Examples.world_of Examples.square_disk) "/sky/absent.png"
                = inl (Exception "cannot identify image file"))
    by (vm_compute; reflexivity).
  split; [reflexivity|]. split; [exact Bad|].
  apply (first_undecodable_file_decides (Examples.world_of Examples.square_disk)
           Cases.up_absent "/out/skybox_cross.png" [] "up" "/sky/absent.png"
           (tl Cases.up_absent) (Exception "cannot identify image file")).
  - reflexivity.
  - intros f' p' [].
  - exact Bad.
Defined.

Lemma missing_face_is_a_key_error_witness :
  Cases.up_only <> [] /\
  Dict.mem "up" Cases.up_only = true /\ Dict.mem "back" Cases.up_only = false /\
  stitch_skybox (Examples.world_of Examples.square_disk) Cases.up_only
    "/out/skybox_cross.png"
  = Stitched false "Error creating skybox: 'back'" [].
Proof.
  split; [discriminate|]. split; [reflexivity|]. split; [reflexivity|].
  apply (proj2 missing_face_is_a_key_error (Examples.world_of Examples.square_disk)
           Cases.up_only "/out/skybox_cross.png" ["up"] "back"
           ["right"; "front"; "left"; "down"]).
  - discriminate.
  - intros f p I. each_entry I. eexists. vm_compute. reflexivity.
  - reflexivity.
  - intros t [<-|[]]. reflexivity.
  - reflexivity.
Defined.

Lemma vtf_face_ends_in_name_error_witness :
  Cases.down_vtf
  = ([("up", "/sky/sky_up.png")] ++ ("down", "/sky/SKY_DN.VTF") :: tl (tl Cases.down_vtf))%list /\
  PyStr.endswith (PyStr.lower "/sky/SKY_DN.VTF") ".vtf" = true /\
  (forall f' p',
      In (f', p') [("up", "/sky/sky_up.png")] ->
      exists img, load_face (Examples.world_of Examples.square_disk) p' = inr img) /\
  stitch_skybox (Examples.world_of Examples.square_disk) Cases.down_vtf
    "/out/skybox_cross.png"
  = Stitched false "Error creating skybox: name 'VTF_SUPPORT' is not defined" [] /\
  stitch_skybox
    (Cases.with_decoder (Examples.world_of Examples.square_disk)
       (inr (Examples.solid 2 2 2)))
    Cases.down_vtf "/out/skybox_cross.png"
  = Stitched false "Error creating skybox: name 'VTF_SUPPORT' is not defined" [].
Proof.
  assert (Vtf : PyStr.endswith (PyStr.lower "/sky/SKY_DN.VTF") ".vtf" = true)
    by (vm_compute; reflexivity).
  assert (Pre : forall world f' p',
             image_open world "/sky/sky_up.png" = inr (Examples.solid 2 2 1) ->
             In (f', p') [("up", "/sky/sky_up.png")] ->
             exists img, load_face world p' = inr img).
  { intros world f' p' O I. each_entry I. exists (Examples.solid 2 2 1).
    unfold load_face.
    change (PyStr.endswith (PyStr.lower "/sky/sky_up.png") ".vtf") with false.
    cbv iota. now rewrite O. }
  split; [reflexivity|]. split; [exact Vtf|].
  split; [intros f' p'; apply Pre; vm_compute; reflexivity|]. split.
  - apply (vtf_face_ends_in_name_error (Examples.world_of Examples.square_disk)
             Cases.down_vtf "/out/skybox_cross.png"
             [("up", "/sky/sky_up.png")] "down" "/sky/SKY_DN.VTF"
             (tl (tl Cases.down_vtf)) eq_refl Vtf).
    intros f' p'. apply Pre. vm_compute. reflexivity.
  - apply (vtf_face_ends_in_name_error
             (Cases.with_decoder (Examples.world_of Examples.square_disk)
                (inr (Examples.solid 2 2 2)))
             Cases.down_vtf "/out/skybox_cross.png"
             [("up", "/sky/sky_up.png")] "down" "/sky/SKY_DN.VTF"
             (tl (tl Cases.down_vtf)) eq_refl Vtf).
    intros f' p'. apply Pre. vm_compute. reflexivity.
Defined.

Lemma vtf_decoder_unused_without_vtf_files_witness :
  (forall f p, In (f, p) Examples.sky_files ->
               PyStr.endswith (PyStr.lower p) ".vtf" = false) /\
  stitch_skybox (Examples.world_of Examples.square_disk) Examples.sky_files
    "/out/skybox_cross.png"
  = stitch_skybox
      (Cases.with_decoder (Examples.world_of Examples.square_disk) (inl "unused"))
      Examples.sky_files "/out/skybox_cross.png".
Proof.
  assert (N : forall f p, In (f, p) Examples.sky_files ->
                          PyStr.endswith (PyStr.lower p) ".vtf" = false)
    by (intros f p I; each_entry I; vm_compute; reflexivity).
  split; [exact N|].
  apply vtf_decoder_unused_without_vtf_files; [reflexivity | reflexivity | exact N].
Defined.

Lemma saved_atlas_matches_report_witness :
  exists msg saved_files,
    stitch_with (Examples.world_of Examples.square_disk) DEFAULT_TRANSFORMS
      Examples.sky_files "/out/skybox_cross.png" = Stitched true msg saved_files /\
    exists atlas,
      saved_files = [SavedImage "/out/skybox_cross.png" atlas] /\
      size atlas = (8, 6).
Proof.
  destruct square_disk_run as (msg & saved_files & Run).
  exists msg, saved_files. split; [exact Run|].
  destruct (saved_atlas_matches_report (Examples.world_of Examples.square_disk)
              DEFAULT_TRANSFORMS Examples.sky_files "/out/skybox_cross.png"
              msg saved_files Run)
    as (atlas & n & E & B & S & _).
  exists atlas. split; [exact E|].
  vm_compute in B. injection B as <-. exact S.
Defined.

Lemma descriptors_reported_are_complete_witness :
  write_error (Cases.disk_full (Examples.world_of Examples.square_disk) 10)
    (skybox_vmat_path_of "/out/skybox_cross.png") <> None /\
  create_vmat_files (Cases.disk_full (Examples.world_of Examples.square_disk) 10)
    "/out/skybox_cross.png" true true
  = ([], [WroteText "/out/skybox_skybox_cross.vmat" "// THIS FI"]).
Proof.
  assert (Fail : write_error (Cases.disk_full (Examples.world_of Examples.square_disk) 10)
                   (skybox_vmat_path_of "/out/skybox_cross.png") <> None)
    by discriminate.
  split; [exact Fail|].
  destruct (descriptors_reported_are_complete
              (Cases.disk_full (Examples.world_of Examples.square_disk) 10)
              "/out/skybox_cross.png" true true) as (_ & _ & _ & Stop).
  destruct (Stop eq_refl Fail) as [F S].
  destruct (create_vmat_files (Cases.disk_full (Examples.world_of Examples.square_disk) 10)
              "/out/skybox_cross.png" true true) as [reported left].
  cbn [fst snd] in F, S. rewrite F, S. vm_compute. reflexivity.
Defined.

Lemma equal_width_faces_are_not_resampled_witness :
  (forall f p img,
      In (f, p) Examples.sky_files ->
      load_face (Examples.world_of Examples.square_disk) p = inr img ->
      width img = 2) /\
  @stitch_skybox ascii_casing posixpath nearest_pillow
    (Examples.world_of Examples.square_disk) Examples.sky_files "/out/skybox_cross.png"
  = @stitch_skybox ascii_casing posixpath Cases.blank_pillow
      (Examples.world_of Examples.square_disk) Examples.sky_files "/out/skybox_cross.png".
Proof.
  assert (Same : forall f p img,
             In (f, p) Examples.sky_files ->
             load_face (Examples.world_of Examples.square_disk) p = inr img ->
             width img = 2).
  { intros f p img I L. each_entry I; vm_compute in L; injection L as <-; reflexivity. }
  split; [exact Same|].
  exact (equal_width_faces_are_not_resampled nearest_pillow Cases.blank_pillow
           (Examples.world_of Examples.square_disk) Examples.sky_files
           "/out/skybox_cross.png" 2 Same).
Defined.
